(** * Verification of [scripts/validate_workflows.py]

    The script walks a directory tree, finds the workflow bundles in it and
    checks each bundle's file set, file sizes, metadata document and the two
    SHA-256 digests recorded in the metadata.  This development embeds the
    script's functions ([sha256_file], [load_metadata], [validate_bundle],
    [main]) together with the parts of the Python library they rely on
    ([hashlib.sha256], [pathlib] names, suffixes and globbing, [set] and
    [sorted]) and proves the properties of the written specification. *)

From Stdlib Require Import ZArith List Ascii String Lia Bool Permutation Sorting.Sorted.
From Stdlib Require Import Init.Byte.
From stdpp Require Import base decidable list gmap sets strings sorting pretty.
From Equations Require Import Equations.
Import ListNotations.

#[local] Set Warnings "-register-all,-clear-no-such-hyp".
Local Open Scope Z_scope.
Local Open Scope string_scope.
Local Open Scope list_scope.

(** ** [hashlib.sha256]

    The hash object of Python's [hashlib]: a running SHA-256 computation
    (FIPS 180-4) that is fed with [update] and read with [hexdigest].
    Words are 32-bit integers kept in [Z]; every addition wraps modulo
    [2^32]. *)
Module hashlib.

Definition wrap32 (x : Z) : Z := x mod 2 ^ 32.
Definition add32 (x y : Z) : Z := wrap32 (x + y).
Definition not32 (x : Z) : Z := Z.lxor x 0xFFFFFFFF.
Definition rotr (n x : Z) : Z :=
  Z.lor (Z.shiftr x n) (wrap32 (Z.shiftl x (32 - n))).
Definition shr (n x : Z) : Z := Z.shiftr x n.

Definition Ch (x y z : Z) : Z := Z.lxor (Z.land x y) (Z.land (not32 x) z).
Definition Maj (x y z : Z) : Z :=
  Z.lxor (Z.lxor (Z.land x y) (Z.land x z)) (Z.land y z).
Definition Sigma0 (x : Z) : Z := Z.lxor (Z.lxor (rotr 2 x) (rotr 13 x)) (rotr 22 x).
Definition Sigma1 (x : Z) : Z := Z.lxor (Z.lxor (rotr 6 x) (rotr 11 x)) (rotr 25 x).
Definition sigma0 (x : Z) : Z := Z.lxor (Z.lxor (rotr 7 x) (rotr 18 x)) (shr 3 x).
Definition sigma1 (x : Z) : Z := Z.lxor (Z.lxor (rotr 17 x) (rotr 19 x)) (shr 10 x).

(** The first sixty-four primes. *)
Definition primes : list Z :=
  [ 2; 3; 5; 7; 11; 13; 17; 19; 23; 29; 31; 37; 41; 43; 47; 53; 59; 61; 67; 71;
    73; 79; 83; 89; 97; 101; 103; 107; 109; 113; 127; 131; 137; 139; 149; 151;
    157; 163; 167; 173; 179; 181; 191; 193; 197; 199; 211; 223; 227; 229; 233;
    239; 241; 251; 257; 263; 269; 271; 277; 281; 283; 293; 307; 311 ].

(** The integer cube root of a number below [2^120], found bit by bit. *)
Definition cube_root (n : Z) : Z :=
  fold_left
    (fun r bit => let r' := r + 2 ^ Z.of_nat bit in
                  if (r' * r' * r' <=? n)%Z then r' else r)
    (rev (seq 0 40)) 0.

(** The round constants: the first 32 bits of the fractional parts of the
    cube roots of the primes. *)
Definition K : list Z :=
  Eval vm_compute in map (fun q => wrap32 (cube_root (q * 2 ^ 96))) primes.

(** The eight chaining words. *)
Record chain : Type := Chain {
  ha : Z; hb : Z; hc : Z; hd : Z; he : Z; hf : Z; hg : Z; hh : Z }.

(** The initial chaining value: the first 32 bits of the fractional parts of
    the square roots of the first eight primes. *)
Definition frac_sqrt (q : Z) : Z := wrap32 (Z.sqrt (q * 2 ^ 64)).

Definition H_init : chain :=
  Eval vm_compute in
    Chain (frac_sqrt 2) (frac_sqrt 3) (frac_sqrt 5) (frac_sqrt 7)
          (frac_sqrt 11) (frac_sqrt 13) (frac_sqrt 17) (frac_sqrt 19).

Definition byte_val (b : byte) : Z := Z.of_N (Byte.to_N b).

(** Big-endian 32-bit words of a block of bytes. *)
Fixpoint words_of_bytes (bs : list byte) : list Z :=
  match bs with
  | b0 :: b1 :: b2 :: b3 :: rest =>
      (byte_val b0 * 0x1000000 + byte_val b1 * 0x10000
       + byte_val b2 * 0x100 + byte_val b3) :: words_of_bytes rest
  | _ => []
  end.

(** Message schedule: [n] more words after the ones in [w]. *)
Fixpoint expand (n : nat) (w : list Z) : list Z :=
  match n with
  | O => w
  | S n' =>
      let t := length w in
      let wt := add32 (add32 (sigma1 (nth (t - 2) w 0)) (nth (t - 7) w 0))
                      (add32 (sigma0 (nth (t - 15) w 0)) (nth (t - 16) w 0)) in
      expand n' (w ++ [wt])
  end.

Definition round (s : chain) (kw : Z * Z) : chain :=
  let '(k, w) := kw in
  let t1 := add32 (add32 (add32 (hh s) (Sigma1 (he s)))
                         (add32 (Ch (he s) (hf s) (hg s)) k)) w in
  let t2 := add32 (Sigma0 (ha s)) (Maj (ha s) (hb s) (hc s)) in
  Chain (add32 t1 t2) (ha s) (hb s) (hc s) (add32 (hd s) t1) (he s) (hf s) (hg s).

(** One 64-byte block. *)
Definition compress (h : chain) (block : list byte) : chain :=
  let w := expand 48 (words_of_bytes block) in
  let s := fold_left round (combine K w) h in
  Chain (add32 (ha h) (ha s)) (add32 (hb h) (hb s))
        (add32 (hc h) (hc s)) (add32 (hd h) (hd s))
        (add32 (he h) (he s)) (add32 (hf h) (hf s))
        (add32 (hg h) (hg s)) (add32 (hh h) (hh s)).

(** The hash object: chaining value, the bytes of the block being filled
    and the number of bytes seen so far. *)
Record sha256_state : Type := State {
  chaining : chain; pending : list byte; total : Z }.

Definition sha256 : sha256_state := State H_init [] 0.

Definition absorb (s : sha256_state) (b : byte) : sha256_state :=
  let buf := pending s ++ [b] in
  if (length buf =? 64)%nat
  then State (compress (chaining s) buf) [] (total s + 1)
  else State (chaining s) buf (total s + 1).

(** [digest.update(data)] *)
Definition update (s : sha256_state) (data : list byte) : sha256_state :=
  fold_left absorb data s.

Definition byte_of_Z (x : Z) : byte :=
  match Byte.of_N (Z.to_N (x mod 256)) with
  | Some b => b
  | None => x00
  end.

(** The [n] low bytes of [x], most significant first. *)
Fixpoint be_bytes (n : nat) (x : Z) : list byte :=
  match n with
  | O => []
  | S n' => be_bytes n' (x / 256) ++ [byte_of_Z x]
  end.

(** Padding of a message of [len] bytes: a one bit, zeros up to 56
    modulo 64, and the length in bits as a 64-bit integer. *)
Definition padding (len : Z) : list byte :=
  x80 :: repeat x00 (Z.to_nat ((55 - len) mod 64)) ++ be_bytes 8 (len * 8).

Definition finish (s : sha256_state) : chain :=
  chaining (fold_left absorb (padding (total s)) s).

Definition hex_digit (x : Z) : ascii :=
  match String.get (Z.to_nat (x mod 16)) "0123456789abcdef" with
  | Some c => c
  | None => "0"%char
  end.

(** [n] hexadecimal digits of [x], most significant first. *)
Fixpoint hex (n : nat) (x : Z) : string :=
  match n with
  | O => EmptyString
  | S n' => String.append (hex n' (x / 16)) (String (hex_digit x) EmptyString)
  end.

(** The eight words in hexadecimal, one after the other. *)
Definition hex_chain (h : chain) : string :=
  String.concat "" (map (hex 8) [ha h; hb h; hc h; hd h; he h; hf h; hg h; hh h]).

(** [digest.hexdigest()] *)
Definition hexdigest (s : sha256_state) : string := hex_chain (finish s).

End hashlib.

(** ** Python values and exceptions *)

(** The outcome of a Python call: a value, or a raised exception carried as
    the text [str(exc)]. *)
Inductive res (A : Type) : Type :=
| Ok (a : A)
| Raise (exc : string).
Arguments Ok {A} a.
Arguments Raise {A} exc.

#[global] Instance res_ret : MRet res := fun A a => Ok a.
#[global] Instance res_bind : MBind res := fun A B f m =>
  match m with
  | Ok a => f a
  | Raise exc => Raise exc
  end.

(** The objects [yaml.safe_load] builds.  A [dict] is kept as its items in
    insertion order.  [YOther] stands for the remaining objects (floats,
    dates, byte strings, sets), of which the script only ever observes the
    truth value. *)
Inductive yaml : Type :=
| YNull
| YBool (b : bool)
| YInt (n : Z)
| YStr (s : string)
| YSeq (items : list yaml)
| YMap (items : list (yaml * yaml))
| YOther (truthy : bool).

(** Python truth value, as used by [x or {}]. *)
Definition truthy (v : yaml) : bool :=
  match v with
  | YNull => false
  | YBool b => b
  | YInt n => negb (n =? 0)%Z
  | YStr s => negb (String.eqb s "")
  | YSeq items => negb (Nat.eqb (length items) 0)
  | YMap items => negb (Nat.eqb (length items) 0)
  | YOther t => t
  end.

(** [x or {}] *)
Definition or_empty_dict (v : yaml) : yaml := if truthy v then v else YMap [].

(** [set(d.keys())], as far as strings are concerned: a key that is not a
    [str] is equal to no string, so it plays no part in a difference with a
    set of strings. *)
Fixpoint str_keys (items : list (yaml * yaml)) : gset string :=
  match items with
  | [] => ∅
  | (YStr k, _) :: rest => {[ k ]} ∪ str_keys rest
  | _ :: rest => str_keys rest
  end.

(** [d.get(k)] for a string [k]; Python's [None] when the key is absent. *)
Fixpoint dict_get (items : list (yaml * yaml)) (k : string) : yaml :=
  match items with
  | [] => YNull
  | (YStr k', v) :: rest => if String.eqb k' k then v else dict_get rest k
  | _ :: rest => dict_get rest k
  end.

(** [s != v] for a string [s] and an arbitrary object [v]. *)
Definition str_ne (s : string) (v : yaml) : bool :=
  match v with
  | YStr t => negb (String.eqb s t)
  | _ => true
  end.

(** ** Sets and sorting *)

(** The order in which Python walks a set is not specified; the script is
    modelled for every enumeration of the elements. *)
Record set_order : Type := SetOrder {
  iter :> gset string → list string;
  iter_perm : ∀ s, iter s ≡ₚ elements s }.

(** [sorted(xs)]: strings compare by code point ([String.le]). *)
Definition sorted (xs : list string) : list string := merge_sort String.le xs.

(** [", ".join(xs)] *)
Definition join (xs : list string) : string := String.concat ", " xs.

(** ** The file system, as [pathlib] sees it *)

(** A resolved absolute path: its components below the file-system root. *)
Definition Path : Type := list string.

(** [str(path)] *)
Definition path_str (p : Path) : string :=
  match p with
  | [] => "/"
  | _ => String.concat "" (map (fun c => "/" +:+ c) p)
  end.

(** [path / name] *)
Definition child (p : Path) (name : string) : Path := p ++ [name].

(** A file with what [stat] reports as its size and the bytes a read
    returns, or a directory with its entries in the order the operating
    system lists them.  Names within one directory are distinct
    ([wf_entries]). *)
Inductive node : Type :=
| File (st_size : Z) (content : list byte)
| Dir (st_size : Z) (entries : list (string * node)).

Definition is_file (n : node) : bool :=
  match n with File _ _ => true | Dir _ _ => false end.
Definition is_dir (n : node) : bool :=
  match n with File _ _ => false | Dir _ _ => true end.

(** The entry a name resolves to. *)
Fixpoint lookup_entry (es : list (string * node)) (name : string) : option node :=
  match es with
  | [] => None
  | (n, x) :: rest => if String.eqb n name then Some x else lookup_entry rest name
  end.

(** [(dir / name).exists()] *)
Definition exists_in (es : list (string * node)) (name : string) : bool :=
  match lookup_entry es name with Some _ => true | None => false end.

(** [(dir / name).stat().st_size]; the text of an [OSError] is cut down
    to the error number and the name. *)
Definition stat_size (es : list (string * node)) (name : string) : res Z :=
  match lookup_entry es name with
  | Some (File sz _) => Ok sz
  | Some (Dir sz _) => Ok sz
  | None => Raise ("[Errno 2] No such file or directory: " +:+ name)
  end.

(** [open(dir / name, "rb")]: the bytes of the file. *)
Definition open_rb (es : list (string * node)) (name : string) : res (list byte) :=
  match lookup_entry es name with
  | Some (File _ bytes) => Ok bytes
  | Some (Dir _ _) => Raise ("[Errno 21] Is a directory: " +:+ name)
  | None => Raise ("[Errno 2] No such file or directory: " +:+ name)
  end.

Definition wf_entries (es : list (string * node)) : Prop := NoDup (map fst es).

(** Names are distinct in every directory of the tree. *)
Fixpoint wf_node (n : node) : Prop :=
  match n with
  | File _ _ => True
  | Dir _ es =>
      wf_entries es ∧
      (fix all (l : list (string * node)) : Prop :=
         match l with
         | [] => True
         | (_, x) :: rest => wf_node x ∧ all rest
         end) es
  end.

(** [str.rfind]: the index of the last occurrence of a character. *)
Fixpoint rfind (c : ascii) (s : string) : option nat :=
  match s with
  | EmptyString => None
  | String a rest =>
      match rfind c rest with
      | Some i => Some (S i)
      | None => if Ascii.eqb a c then Some O else None
      end
  end.

(** [PurePath.suffix] of a name: from the last dot on, unless that dot is
    the first or the last character. *)
Definition suffix (name : string) : string :=
  match rfind "." name with
  | Some i =>
      if (Nat.ltb 0 i && Nat.ltb i (String.length name - 1))%bool
      then String.substring i (String.length name - i) name
      else ""
  | None => ""
  end.

(** [root.rglob("*")]: every directory of the tree yields its entries in
    listing order; the root itself is not yielded, and a root that is a
    file yields nothing.  The directories are taken as [pathlib] of Python
    3.11 takes them, the root first and each directory before the ones below
    it; later versions walk the deeper directories in another order, the
    entries of the root come first in all of them. *)
Fixpoint rglob (p : Path) (n : node) : list (Path * node) :=
  match n with
  | File _ _ => []
  | Dir _ es =>
      map (fun e => (child p (fst e), snd e)) es ++
      (fix below (l : list (string * node)) : list (Path * node) :=
         match l with
         | [] => []
         | (name, x) :: rest => rglob (child p name) x ++ below rest
         end) es
  end.

(** ** The script *)

Definition MAX_SIZE_BYTES : Z := 2 * 1024 * 1024.

Definition REQUIRED_FILES : gset string :=
  {[ "metadata.yaml"; "workflow_api.json"; "workflow_original.json" ]}.

Definition OPTIONAL_FILES : gset string := {[ "README.md"; "preview.png" ]}.

Definition REQUIRED_META_FIELDS : gset string :=
  {[ "name"; "version"; "author"; "description"; "tags";
     "min_comfyui_version"; "compatible_cindergrace_versions";
     "required_models"; "recommended_vram_gb";
     "contains_non_manager_nodes"; "non_manager_nodes_info"; "hashes" ]}.

Definition REQUIRED_HASH_FIELDS : gset string := {[ "api_json"; "original_json" ]}.

(** The loop of [sha256_file]: [f] is what is left to read of the open
    file, [f.read(size)] takes the next [size] bytes of it, and the loop
    stops at the first empty read. *)
Equations? read_chunks (size : nat) (f : list byte) (digest : hashlib.sha256_state)
  : hashlib.sha256_state by wf (length f) lt :=
  read_chunks size f digest with Equations.Prop.Logic.inspect (firstn size f) := {
    | exist _ nil _ := digest;
    | exist _ (cons b chunk) Hread :=
        read_chunks size (skipn size f) (hashlib.update digest (b :: chunk)) }.
Proof.
  destruct size as [|size]; [discriminate|].
  destruct f as [|b0 f]; [discriminate|].
  rewrite length_skipn. simpl. lia.
Qed.

Definition sha256_file (es : list (string * node)) (name : string) : res string :=
  content ← open_rb es name;
  Ok (hashlib.hexdigest (read_chunks (1024 * 1024) content hashlib.sha256)).

Section Script.

(** The order in which sets are walked, and
    [yaml.safe_load(path.read_text(encoding="utf-8"))] as a function of
    the bytes of the file: the object built, or the exception raised by
    the decoding or the parsing. *)
Variable order : set_order.
Variable safe_load : list byte → res yaml.

Definition load_metadata (es : list (string * node)) (name : string)
  : res (list (yaml * yaml)) :=
  bytes ← open_rb es name;
  doc ← safe_load bytes;
  match or_empty_dict doc with
  | YMap items => Ok items
  | _ => Raise "metadata.yaml must be a mapping"
  end.

(** [{p.name for p in bundle_dir.iterdir() if p.is_file()}] *)
Definition file_set (es : list (string * node)) : gset string :=
  list_to_set (map fst (List.filter (fun e => is_file (snd e)) es)).

(** [[p.name for p in bundle_dir.iterdir()
      if p.is_file() and p.suffix == ".models"]] *)
Definition models_list (es : list (string * node)) : list string :=
  map fst (List.filter
    (fun e => is_file (snd e) && String.eqb (suffix (fst e)) ".models") es).

(** The size loop over the names in [names]. *)
Fixpoint size_check (bundle_dir : Path) (es : list (string * node))
    (names : list string) (errors : list string) : res (list string) :=
  match names with
  | [] => Ok errors
  | name :: rest =>
      sz ← stat_size es name;
      size_check bundle_dir es rest
        (if (MAX_SIZE_BYTES <? sz)%Z
         then errors ++ [path_str bundle_dir +:+ ": " +:+ name +:+ " exceeds 2 MB"]
         else errors)
  end.

Definition validate_bundle (bundle_dir : Path) (es : list (string * node))
    (errors : list string) : res (list string) :=
  let files := file_set es in
  let missing := REQUIRED_FILES ∖ files in
  if negb (bool_decide (missing = ∅)) then
    Ok (errors ++ [path_str bundle_dir +:+ ": missing files: "
                     +:+ join (sorted (order missing))])
  else
  let models_files := models_list es in
  if negb (Nat.eqb (length models_files) 1) then
    Ok (errors ++ [path_str bundle_dir +:+ ": must contain exactly one .models file"])
  else
  let allowed := REQUIRED_FILES ∪ OPTIONAL_FILES ∪ list_to_set models_files in
  let unknown := sorted (order (files ∖ allowed)) in
  let errors :=
    match unknown with
    | [] => errors
    | _ => errors ++ [path_str bundle_dir +:+ ": unknown files present: "
                        +:+ join unknown]
    end in
  errors ← size_check bundle_dir es
             (order (REQUIRED_FILES ∪ list_to_set models_files)) errors;
  match load_metadata es "metadata.yaml" with
  | Raise exc =>
      Ok (errors ++ [path_str bundle_dir +:+ ": invalid metadata.yaml ("
                       +:+ exc +:+ ")"])
  | Ok meta =>
  let missing_fields := REQUIRED_META_FIELDS ∖ str_keys meta in
  if negb (bool_decide (missing_fields = ∅)) then
    Ok (errors ++ [path_str bundle_dir +:+ ": metadata missing fields: "
                     +:+ join (sorted (order missing_fields))])
  else
  match or_empty_dict (dict_get meta "hashes") with
  | YMap hashes =>
      if negb (bool_decide (REQUIRED_HASH_FIELDS ∖ str_keys hashes = ∅)) then
        Ok (errors ++ [path_str bundle_dir
                         +:+ ": metadata hashes missing api_json/original_json"])
      else
      api_hash ← sha256_file es "workflow_api.json";
      original_hash ← sha256_file es "workflow_original.json";
      let errors :=
        if str_ne api_hash (dict_get hashes "api_json")
        then errors ++ [path_str bundle_dir +:+ ": api_json hash mismatch"]
        else errors in
      let errors :=
        if str_ne original_hash (dict_get hashes "original_json")
        then errors ++ [path_str bundle_dir +:+ ": original_json hash mismatch"]
        else errors in
      Ok errors
  | _ => Ok (errors ++ [path_str bundle_dir +:+ ": metadata hashes must be a mapping"])
  end
  end.

(** [[p for p in root.rglob("*")
      if p.is_dir() and (p / "metadata.yaml").exists()]] *)
Definition is_bundle (pn : Path * node) : bool :=
  match snd pn with
  | Dir _ es => exists_in es "metadata.yaml"
  | File _ _ => false
  end.

Definition find_bundles (root : Path) (n : node) : list (Path * node) :=
  List.filter is_bundle (rglob root n).

Definition entries_of (n : node) : list (string * node) :=
  match n with
  | Dir _ es => es
  | File _ _ => []
  end.

(** The loop [for bundle in bundles: validate_bundle(bundle, errors)]. *)
Fixpoint validate_all (bundles : list (Path * node)) (errors : list string)
  : res (list string) :=
  match bundles with
  | [] => Ok errors
  | (p, n) :: rest =>
      errors ← validate_bundle p (entries_of n) errors;
      validate_all rest errors
  end.

(** [main]: [root] is the resolved [--root] path and [at_root] what the
    file system holds there, if anything.  The result is the lines
    printed and the value returned, which becomes the exit status. *)
Definition main (root : Path) (at_root : option node) : res (list string * Z) :=
  match at_root with
  | None => Ok (["ERROR: workflows root not found: " +:+ path_str root], 1)
  | Some n =>
      let bundles := find_bundles root n in
      match bundles with
      | [] => Ok (["WARNING: No workflow bundles found (metadata.yaml missing)"], 0)
      | _ =>
          errors ← validate_all bundles [];
          match errors with
          | _ :: _ =>
              Ok ("VALIDATION FAILED:" :: map (fun err => "- " +:+ err) errors, 1)
          | [] =>
              Ok (["Validation OK: " +:+ pretty (length bundles) +:+ " bundle(s)"], 0)
          end
      end
  end.

End Script.
(** ** Concrete inputs *)

Definition bytes_of_string (s : string) : list byte := String.list_byte_of_string s.

(** Sets walked in sorted order: one of the orders Python may use. *)
Definition sorted_order : set_order.
Proof.
  refine (SetOrder (fun s => sorted (elements s)) _).
  intros s. apply merge_sort_Permutation.
Defined.

(** Sets walked in reverse sorted order: another one. *)
Definition reverse_order : set_order.
Proof.
  refine (SetOrder (fun s => rev (sorted (elements s))) _).
  intros s. rewrite <- Permutation_rev. apply merge_sort_Permutation.
Defined.

(** A YAML loader given by a table of documents: the text of each document
    with the object [yaml.safe_load] builds from it.  Any other text is
    refused. *)
Definition table_load (table : list (string * yaml)) (bytes : list byte) : res yaml :=
  match List.find (fun e => String.eqb (fst e) (String.string_of_list_byte bytes)) table with
  | Some e => Ok (snd e)
  | None => Raise "could not parse the document"
  end.

Definition file_of (text : string) : node :=
  File (Z.of_nat (String.length text)) (bytes_of_string text).

Definition api_text : string := "{}".
Definition original_text : string := "{nodes: []}".
Definition models_text : string := "sd15.safetensors".

Definition api_digest : string :=
  Eval vm_compute in
    hashlib.hexdigest (hashlib.update hashlib.sha256 (bytes_of_string api_text)).
Definition original_digest : string :=
  Eval vm_compute in
    hashlib.hexdigest (hashlib.update hashlib.sha256 (bytes_of_string original_text)).

(** The twelve required fields other than [hashes], as a flow mapping. *)
Definition meta_head : string :=
  "{name: demo, version: v1, author: me, description: demo workflow, tags: [demo], "
  +:+ "min_comfyui_version: v0, compatible_cindergrace_versions: [v1], "
  +:+ "required_models: [], recommended_vram_gb: 8, "
  +:+ "contains_non_manager_nodes: false, non_manager_nodes_info: none, ".

Definition meta_head_items : list (yaml * yaml) :=
  [ (YStr "name", YStr "demo"); (YStr "version", YStr "v1");
    (YStr "author", YStr "me"); (YStr "description", YStr "demo workflow");
    (YStr "tags", YSeq [YStr "demo"]);
    (YStr "min_comfyui_version", YStr "v0");
    (YStr "compatible_cindergrace_versions", YSeq [YStr "v1"]);
    (YStr "required_models", YSeq []);
    (YStr "recommended_vram_gb", YInt 8);
    (YStr "contains_non_manager_nodes", YBool false);
    (YStr "non_manager_nodes_info", YStr "none") ].

Definition good_meta_text : string :=
  meta_head +:+ "hashes: {api_json: " +:+ api_digest
            +:+ ", original_json: " +:+ original_digest +:+ "}}".
Definition good_meta : yaml :=
  YMap (meta_head_items ++
    [ (YStr "hashes", YMap [ (YStr "api_json", YStr api_digest);
                             (YStr "original_json", YStr original_digest) ]) ]).

Definition null_hashes_text : string := meta_head +:+ "hashes: null}".
Definition null_hashes_meta : yaml :=
  YMap (meta_head_items ++ [ (YStr "hashes", YNull) ]).

Definition list_hashes_text : string := meta_head +:+ "hashes: [a, b]}".
Definition list_hashes_meta : yaml :=
  YMap (meta_head_items ++ [ (YStr "hashes", YSeq [YStr "a"; YStr "b"]) ]).

Definition documents : list (string * yaml) :=
  [ (good_meta_text, good_meta);
    (null_hashes_text, null_hashes_meta);
    (list_hashes_text, list_hashes_meta);
    ("", YNull) ].

Definition good_bundle : list (string * node) :=
  [ ("workflow_original.json", file_of original_text);
    ("metadata.yaml", file_of good_meta_text);
    ("demo.models", file_of models_text);
    ("workflow_api.json", file_of api_text);
    ("README.md", file_of "# demo") ].

Definition demo_root : Path := ["srv"; "workflows"].

Definition demo_dir : Path := child demo_root "demo".

(** A bundle with a second file whose name ends in [.models]: the hidden
    file [.models]. *)
Definition hidden_models_bundle : list (string * node) :=
  good_bundle ++ [ (".models", file_of "") ].

(** The good bundle with another [metadata.yaml]. *)
Definition bundle_with_meta (text : string) : list (string * node) :=
  [ ("workflow_original.json", file_of original_text);
    ("metadata.yaml", file_of text);
    ("demo.models", file_of models_text);
    ("workflow_api.json", file_of api_text) ].

(** A directory that holds an empty [metadata.yaml] and nothing else. *)
Definition lone_metadata : list (string * node) := [ ("metadata.yaml", file_of "") ].

(** A root whose listing gives [b] before [a]; [b] is in order, [a] holds
    only an empty [metadata.yaml], and [docs] is not a bundle. *)
Definition demo_tree : node :=
  Dir 4096
    [ ("b", Dir 4096 good_bundle);
      ("docs", Dir 4096 [ ("index.md", file_of "# docs") ]);
      ("a", Dir 4096 lone_metadata) ].

(** The good bundle with one file more. *)
Definition bundle_plus (name : string) (x : node) : list (string * node) :=
  good_bundle ++ [ (name, x) ].

(** A file of [n] zero bytes. *)
Definition zeros (n : Z) : node := File n (repeat x00 (Z.to_nat n)).

(** A file of one byte more than 2 MiB, and one of exactly 2 MiB. *)
Definition big_file : node := zeros (2 * 1024 * 1024 + 1).
Definition full_file : node := zeros (2 * 1024 * 1024).

(** A bundle whose [workflow_api.json] is too large and whose
    [workflow_original.json] is exactly at the cap. *)
Definition big_bundle : list (string * node) :=
  [ ("workflow_original.json", full_file);
    ("metadata.yaml", file_of good_meta_text);
    ("demo.models", file_of models_text);
    ("workflow_api.json", big_file) ].

(** More documents: a sequence, a mapping with one field, and the good
    metadata with the digest of [workflow_api.json] in capitals. *)
Definition partial_meta_text : string := "{name: demo, version: v1}".
Definition partial_meta : yaml :=
  YMap [ (YStr "name", YStr "demo"); (YStr "version", YStr "v1") ].

Definition sequence_text : string := "[name, version]".
Definition sequence_doc : yaml := YSeq [YStr "name"; YStr "version"].

Definition capital_digest : string :=
  "44136FA355B3678A1146AD16F7E8649E94FB4FC21FE77E8310C060F61CAAFF8A".
Definition capital_meta_text : string :=
  meta_head +:+ "hashes: {api_json: " +:+ capital_digest
            +:+ ", original_json: " +:+ original_digest +:+ "}}".
Definition capital_meta : yaml :=
  YMap (meta_head_items ++
    [ (YStr "hashes", YMap [ (YStr "api_json", YStr capital_digest);
                             (YStr "original_json", YStr original_digest) ]) ]).

Definition more_documents : list (string * yaml) :=
  documents ++
  [ (partial_meta_text, partial_meta);
    (sequence_text, sequence_doc);
    (capital_meta_text, capital_meta) ].

(** A text that is not YAML: the mapping is not closed. *)
Definition broken_text : string := "{name: demo".

(** The good bundle with a subdirectory, and a directory in which
    [metadata.yaml] is a directory. *)
Definition bundle_with_assets : list (string * node) :=
  bundle_plus "assets" (Dir 4096 [ ("logo.png", file_of "png") ]).
Definition metadata_as_directory : list (string * node) :=
  [ ("metadata.yaml", Dir 4096 []); ("workflow_api.json", file_of api_text) ].

(** The document [false]. *)
Definition false_text : string := "false".
Definition false_documents : list (string * yaml) :=
  more_documents ++ [ (false_text, YBool false) ].
(** ** Notions used in the statements *)

(** A lowercase hexadecimal digit. *)
Definition lower_hex (c : ascii) : bool :=
  match String.index 0 (String c EmptyString) "0123456789abcdef" with
  | Some _ => true
  | None => false
  end.

(** What [stat] reports for an entry. *)
Definition node_size (n : node) : Z :=
  match n with File sz _ => sz | Dir sz _ => sz end.

(** The entry called [name] is larger than the cap. *)
Definition oversize (es : list (string * node)) (name : string) : bool :=
  match lookup_entry es name with
  | Some x => (MAX_SIZE_BYTES <? node_size x)%Z
  | None => false
  end.

Definition size_message (p : Path) (name : string) : string :=
  path_str p +:+ ": " +:+ name +:+ " exceeds 2 MB".

(** The errors of the size check over the names [names]. *)
Definition size_errors (p : Path) (es : list (string * node)) (names : list string)
  : list string :=
  map (size_message p) (List.filter (oversize es) names).

(** The names the size check looks at. *)
Definition sized (es : list (string * node)) : gset string :=
  REQUIRED_FILES ∪ list_to_set (models_list es).

(** The allow-list of the unknown-file check. *)
Definition allowed (es : list (string * node)) : gset string :=
  REQUIRED_FILES ∪ OPTIONAL_FILES ∪ list_to_set (models_list es).

Definition unknown_files (es : list (string * node)) : list string :=
  sorted (elements (file_set es ∖ allowed es)).

(** The errors of the unknown-file check. *)
Definition unknown_errors (p : Path) (es : list (string * node)) : list string :=
  match unknown_files es with
  | [] => []
  | names => [path_str p +:+ ": unknown files present: " +:+ join names]
  end.

(** The errors of the two hash comparisons. *)
Definition hash_errors (p : Path) (api_hash original_hash : string)
    (hashes : list (yaml * yaml)) : list string :=
  (if str_ne api_hash (dict_get hashes "api_json")
   then [path_str p +:+ ": api_json hash mismatch"] else []) ++
  (if str_ne original_hash (dict_get hashes "original_json")
   then [path_str p +:+ ": original_json hash mismatch"] else []).

(** The errors of the metadata and hash steps of [validate_bundle], which
    follow the size check. *)
Definition metadata_errors (safe_load : list byte → res yaml) (p : Path)
    (es : list (string * node)) : res (list string) :=
  match load_metadata safe_load es "metadata.yaml" with
  | Raise exc => Ok [path_str p +:+ ": invalid metadata.yaml (" +:+ exc +:+ ")"]
  | Ok meta =>
      if negb (bool_decide (REQUIRED_META_FIELDS ∖ str_keys meta = ∅)) then
        Ok [path_str p +:+ ": metadata missing fields: "
              +:+ join (sorted (elements (REQUIRED_META_FIELDS ∖ str_keys meta)))]
      else
        match or_empty_dict (dict_get meta "hashes") with
        | YMap hashes =>
            if negb (bool_decide (REQUIRED_HASH_FIELDS ∖ str_keys hashes = ∅)) then
              Ok [path_str p +:+ ": metadata hashes missing api_json/original_json"]
            else
              api_hash ← sha256_file es "workflow_api.json";
              original_hash ← sha256_file es "workflow_original.json";
              Ok (hash_errors p api_hash original_hash hashes)
        | _ => Ok [path_str p +:+ ": metadata hashes must be a mapping"]
        end
  end.

(** The one-pass digest [hashlib.sha256(data).hexdigest()]. *)
Definition sha256_hex (data : list byte) : string :=
  hashlib.hexdigest (hashlib.update hashlib.sha256 data).

(** The blocks of 64 bytes of a message. *)
Equations? blocks (data : list byte) : list (list byte) by wf (length data) lt :=
  blocks nil := nil;
  blocks (cons b rest) := firstn 64 (cons b rest) :: blocks (skipn 64 (cons b rest)).
Proof. rewrite length_skipn. simpl. lia. Qed.

(** SHA-256 over a whole message in one pass, as FIPS 180-4 defines it:
    the message is padded, cut into blocks, and the blocks are compressed
    one after the other from the initial chaining value. *)
Definition sha256_one_pass (message : list byte) : string :=
  hashlib.hex_chain
    (fold_left hashlib.compress
       (blocks (message ++ hashlib.padding (Z.of_nat (length message))))
       hashlib.H_init).

Definition is_mapping (v : yaml) : bool :=
  match v with YMap _ => true | _ => false end.

(** The required names, in sorted order, that are not among the regular
    files of a directory. *)
Definition missing_files (es : list (string * node)) : list string :=
  List.filter (fun name => negb (bool_decide (name ∈ file_set es)))
    ["metadata.yaml"; "workflow_api.json"; "workflow_original.json"].

(** [name] ends in [ending]. *)
Definition ends_with (ending name : string) : bool :=
  (String.length ending <=? String.length name)%nat &&
  String.eqb
    (String.substring (String.length name - String.length ending)
       (String.length ending) name) ending.

(** The number of regular files whose name ends in [.models]. *)
Definition count_named_models (es : list (string * node)) : nat :=
  length (List.filter (fun e => is_file (snd e) && ends_with ".models" (fst e)) es).

(** A directory without its unknown files. *)
Definition without_unknown (es : list (string * node)) : list (string * node) :=
  List.filter (fun e => negb (is_file (snd e)) || bool_decide (fst e ∈ allowed es)) es.

(** The same entry, reported by [stat] with size zero. *)
Definition resize (x : node) : node :=
  match x with
  | File _ bytes => File 0 bytes
  | Dir _ sub => Dir 0 sub
  end.

(** A directory whose entries are all reported with size zero: same names,
    same kinds, same contents. *)
Definition resized (es : list (string * node)) : list (string * node) :=
  map (fun e => (fst e, resize (snd e))) es.

(** The errors a bundle adds to the list. *)
Definition bundle_errors (order : set_order) (safe_load : list byte → res yaml)
    (p : Path) (es : list (string * node)) : list string :=
  match validate_bundle order safe_load p es [] with
  | Ok new => new
  | Raise _ => []
  end.

(** The entry a relative path leads to. *)
Fixpoint resolve (n : node) (rel : list string) : option node :=
  match rel with
  | [] => Some n
  | name :: rest =>
      match n with
      | Dir _ es =>
          match lookup_entry es name with
          | Some x => resolve x rest
          | None => None
          end
      | File _ _ => None
      end
  end.

(** Paths compare component by component. *)
Fixpoint path_leb (p q : Path) : bool :=
  match p, q with
  | [], _ => true
  | _ :: _, [] => false
  | a :: p', b :: q' => if String.eqb a b then path_leb p' q' else String.leb a b
  end.

(** The required fields, in sorted order, that are not keys of a metadata
    mapping. *)
Definition missing_fields (meta : list (yaml * yaml)) : list string :=
  List.filter (fun field => negb (bool_decide (field ∈ str_keys meta)))
    [ "author"; "compatible_cindergrace_versions"; "contains_non_manager_nodes";
      "description"; "hashes"; "min_comfyui_version"; "name";
      "non_manager_nodes_info"; "recommended_vram_gb"; "required_models";
      "tags"; "version" ].

(** The regular files of a directory, without its subdirectories. *)
Definition files_only (es : list (string * node)) : list (string * node) :=
  List.filter (fun e => is_file (snd e)) es.

(** What comes before the metadata errors of a bundle. *)
Definition structure_errors (order : set_order) (p : Path)
    (es : list (string * node)) : list string :=
  unknown_errors p es ++ size_errors p es (order (sized es)).

(** * Properties *)

(** ** The hash object *)

Lemma update_app (s : hashlib.sha256_state) (a b : list byte) :
  hashlib.update (hashlib.update s a) b = hashlib.update s (a ++ b).
Proof. unfold hashlib.update. symmetry. apply fold_left_app. Qed.

(** Reading in chunks of any positive size feeds the hash object the whole
    content. *)
Lemma read_chunks_update (size : nat) (f : list byte) (digest : hashlib.sha256_state) :
  (0 < size)%nat → read_chunks size f digest = hashlib.update digest f.
Proof.
  intros Hsize. funelim (read_chunks size f digest).
  - destruct size as [|size]; [lia|].
    destruct f as [|b f]; [reflexivity|discriminate].
  - rewrite H by assumption. rewrite <- Hread, update_app, firstn_skipn.
    reflexivity.
Qed.


Lemma hex_digit_lower (x : Z) : lower_hex (hashlib.hex_digit x) = true.
Proof.
  unfold hashlib.hex_digit.
  assert (Hr : (Z.to_nat (x mod 16) < 16)%nat)
    by (pose proof (Z.mod_pos_bound x 16); lia).
  generalize dependent (Z.to_nat (x mod 16)). intros k Hk.
  do 16 (destruct k as [|k]; [reflexivity|]). lia.
Qed.

Lemma chars_append (s t : string) :
  list_ascii_of_string (s +:+ t) = list_ascii_of_string s ++ list_ascii_of_string t.
Proof. induction s as [|c s IH]; simpl; [reflexivity|]. by rewrite IH. Qed.

Lemma length_chars (s : string) : length (list_ascii_of_string s) = String.length s.
Proof. induction s as [|c s IH]; simpl; [reflexivity|]. by rewrite IH. Qed.

Lemma hex_chars (n : nat) (x : Z) :
  Forall (fun c => lower_hex c = true) (list_ascii_of_string (hashlib.hex n x))
  ∧ length (list_ascii_of_string (hashlib.hex n x)) = n.
Proof.
  revert x. induction n as [|n IH]; intros x; simpl.
  - split; [constructor|reflexivity].
  - destruct (IH (x / 16)) as [Hall Hlen].
    rewrite chars_append, length_app, Hlen. simpl. split; [|lia].
    apply Forall_app. split; [exact Hall|].
    repeat constructor. apply hex_digit_lower.
Qed.

Lemma concat_hex_chars (ws : list Z) :
  Forall (fun c => lower_hex c = true)
    (list_ascii_of_string (String.concat "" (map (hashlib.hex 8) ws)))
  ∧ length (list_ascii_of_string (String.concat "" (map (hashlib.hex 8) ws)))
    = (8 * length ws)%nat.
Proof.
  induction ws as [|w ws [IHall IHlen]]; [split; [constructor|reflexivity]|].
  destruct (hex_chars 8 w) as [Hall Hlen].
  destruct ws as [|w' ws].
  - cbn [map String.concat length]. split; [exact Hall|]. rewrite Hlen. lia.
  - cbn [map String.concat] in *. rewrite !chars_append, !length_app.
    cbn [list_ascii_of_string length app]. rewrite Hlen, IHlen.
    split; [|cbn [length]; lia].
    apply Forall_app. split; [exact Hall|exact IHall].
Qed.

(** What [hexdigest] returns is a string of 64 lowercase hexadecimal
    digits. *)
Lemma hexdigest_chars (s : hashlib.sha256_state) :
  Forall (fun c => lower_hex c = true) (list_ascii_of_string (hashlib.hexdigest s))
  ∧ String.length (hashlib.hexdigest s) = 64%nat.
Proof.
  unfold hashlib.hexdigest, hashlib.hex_chain. rewrite <- length_chars.
  generalize (hashlib.finish s). intros h.
  destruct (concat_hex_chars
    [hashlib.ha h; hashlib.hb h; hashlib.hc h; hashlib.hd h;
     hashlib.he h; hashlib.hf h; hashlib.hg h; hashlib.hh h]) as [Hall Hlen].
  split; [exact Hall|exact Hlen].
Qed.

(** ** The hash object computes the one-pass digest *)

Lemma absorb_short (l buf : list byte) (h : hashlib.chain) (t : Z) :
  (length buf + length l < 64)%nat →
  fold_left hashlib.absorb l (hashlib.State h buf t)
  = hashlib.State h (buf ++ l) (t + Z.of_nat (length l)).
Proof.
  revert buf t. induction l as [|b l IH]; intros buf t Hlen.
  - cbn [fold_left length]. by rewrite app_nil_r, Z.add_0_r.
  - cbn [fold_left length] in *. unfold hashlib.absorb at 2.
    cbn [hashlib.pending hashlib.chaining hashlib.total].
    destruct (Nat.eqb_spec (length (buf ++ [b])) 64) as [Heq|_].
    + rewrite length_app in Heq. cbn [length] in Heq. lia.
    + rewrite IH by (rewrite length_app; cbn [length]; lia).
      rewrite <- app_assoc. cbn [app]. f_equal; lia.
Qed.

Lemma absorb_block (l buf : list byte) (h : hashlib.chain) (t : Z) :
  (length buf + length l = 64)%nat → l ≠ [] →
  fold_left hashlib.absorb l (hashlib.State h buf t)
  = hashlib.State (hashlib.compress h (buf ++ l)) [] (t + Z.of_nat (length l)).
Proof.
  revert buf t. induction l as [|b l IH]; intros buf t Hlen Hne; [done|].
  cbn [fold_left length] in *. unfold hashlib.absorb at 2.
  cbn [hashlib.pending hashlib.chaining hashlib.total].
  destruct (Nat.eqb_spec (length (buf ++ [b])) 64) as [Heq|Hneq].
  - rewrite length_app in Heq. cbn [length] in Heq.
    destruct l; [|cbn [length] in Hlen; lia]. cbn [fold_left]. f_equal; lia.
  - rewrite length_app in Hneq. cbn [length] in Hneq.
    rewrite IH.
    + rewrite <- app_assoc. cbn [app]. f_equal; lia.
    + rewrite length_app. cbn [length]. lia.
    + intros ->. cbn [length] in Hlen. lia.
Qed.

Lemma absorb_blocks (k : nat) (data : list byte) (h : hashlib.chain) (t : Z) :
  length data = (64 * k)%nat →
  fold_left hashlib.absorb data (hashlib.State h [] t)
  = hashlib.State (fold_left hashlib.compress (blocks data) h) []
      (t + Z.of_nat (length data)).
Proof.
  revert data h t. induction k as [|k IH]; intros data h t Hlen.
  - destruct data; [|cbn [length] in Hlen; lia]. simp blocks. cbn.
    by rewrite Z.add_0_r.
  - destruct data as [|b rest] eqn:Hdata; [cbn [length] in Hlen; lia|].
    simp blocks. rewrite <- Hdata in *. clear Hdata b rest.
    rewrite <- (firstn_skipn 64 data) at 1. rewrite fold_left_app.
    rewrite (absorb_block (firstn 64 data) [] h t).
    + cbn [app fold_left]. rewrite (IH (skipn 64 data)).
      * f_equal. rewrite length_firstn, length_skipn.
        rewrite <- (firstn_skipn 64 data) at 3.
        rewrite length_app, length_firstn, length_skipn. lia.
      * rewrite length_skipn. lia.
    + cbn [length]. rewrite length_firstn. lia.
    + intros Hnil. apply (f_equal length) in Hnil.
      rewrite length_firstn in Hnil. cbn [length] in Hnil. lia.
Qed.

Lemma total_update (l : list byte) (s : hashlib.sha256_state) :
  hashlib.total (fold_left hashlib.absorb l s)
  = hashlib.total s + Z.of_nat (length l).
Proof.
  revert s. induction l as [|b l IH]; intros s; cbn [fold_left length]; [lia|].
  rewrite IH. unfold hashlib.absorb.
  destruct (length (hashlib.pending s ++ [b]) =? 64)%nat;
    cbn [hashlib.total]; lia.
Qed.

Lemma length_be_bytes (n : nat) (x : Z) : length (hashlib.be_bytes n x) = n.
Proof.
  revert x. induction n as [|n IH]; intros x; cbn [hashlib.be_bytes]; [done|].
  rewrite length_app, IH. cbn [length]. lia.
Qed.

Lemma padded_length (message : list byte) :
  ∃ k, length (message ++ hashlib.padding (Z.of_nat (length message)))
       = (64 * k)%nat.
Proof.
  unfold hashlib.padding. rewrite length_app. cbn [length].
  rewrite length_app, repeat_length, length_be_bytes.
  set (len := Z.of_nat (length message)).
  pose proof (Z.mod_pos_bound (55 - len) 64 eq_refl) as Hr.
  pose proof (Z.div_mod (55 - len) 64) as Hdiv.
  exists (Z.to_nat (1 - (55 - len) / 64)). subst len. lia.
Qed.

(** Feeding the hash object a whole message and reading it gives the
    one-pass digest of the message. *)
Lemma sha256_hex_one_pass (message : list byte) :
  sha256_hex message = sha256_one_pass message.
Proof.
  unfold sha256_hex, sha256_one_pass, hashlib.hexdigest, hashlib.finish,
    hashlib.update. f_equal.
  rewrite total_update. cbn [hashlib.total hashlib.sha256]. rewrite Z.add_0_l.
  rewrite <- fold_left_app. destruct (padded_length message) as [k Hk].
  unfold hashlib.sha256. by rewrite (absorb_blocks k).
Qed.

(** ** Sets and sorting *)

Lemma elem_of_sorted (x : string) (l : list string) : x ∈ sorted l ↔ x ∈ l.
Proof. unfold sorted. by rewrite merge_sort_Permutation. Qed.

Lemma Sorted_sorted (l : list string) : Sorted String.le (sorted l).
Proof. apply (Sorted_merge_sort String.le). Qed.

(** Sorting does not depend on the order in which the elements arrive. *)
Lemma sorted_perm (l l' : list string) : l ≡ₚ l' → sorted l = sorted l'.
Proof.
  intros Hperm. apply (Sorted_unique String.le); try apply Sorted_sorted.
  unfold sorted. by rewrite !merge_sort_Permutation.
Qed.

Lemma sorted_order_elements (order : set_order) (s : gset string) :
  sorted (order s) = sorted (elements s).
Proof. apply sorted_perm, iter_perm. Qed.

Lemma elem_of_order (order : set_order) (s : gset string) (x : string) :
  x ∈ order s ↔ x ∈ s.
Proof. by rewrite iter_perm, elem_of_elements. Qed.

Lemma NoDup_order (order : set_order) (s : gset string) : NoDup (order s).
Proof. rewrite iter_perm. apply NoDup_elements. Qed.

Lemma sorted_order_nil (order : set_order) (s : gset string) :
  sorted (order s) = [] ↔ s = ∅.
Proof.
  split.
  - intros Hnil. apply set_eq. intros x.
    rewrite <- (elem_of_order order), <- elem_of_sorted, Hnil.
    split; [by intros ?%elem_of_nil|set_solver].
  - intros ->. apply elem_of_nil_inv. intros x.
    rewrite elem_of_sorted, elem_of_order. set_solver.
Qed.

(** A sorted duplicate-free list with the elements of a set is what
    [sorted] makes of the set. *)
Lemma sorted_order_eq (order : set_order) (s : gset string) (l : list string) :
  Sorted String.le l → NoDup l → (∀ x, x ∈ l ↔ x ∈ s) → sorted (order s) = l.
Proof.
  intros Hsorted Hnodup Hin.
  apply (Sorted_unique String.le); [apply Sorted_sorted|exact Hsorted|].
  unfold sorted. rewrite merge_sort_Permutation.
  apply NoDup_Permutation; [apply NoDup_order|exact Hnodup|].
  intros x. by rewrite elem_of_order, Hin.
Qed.

(** ** Directory listings *)

Lemma elem_of_file_set (es : list (string * node)) (name : string) :
  name ∈ file_set es ↔ ∃ sz bytes, (name, File sz bytes) ∈ es.
Proof.
  unfold file_set. rewrite elem_of_list_to_set, list_elem_of_fmap. split.
  - intros [[n x] [-> Hin]]. apply list_elem_of_In, filter_In in Hin.
    destruct Hin as [Hin Hfile]. destruct x as [sz bytes|]; [|discriminate].
    exists sz, bytes. by apply list_elem_of_In.
  - intros (sz & bytes & Hin). exists (name, File sz bytes). split; [done|].
    apply list_elem_of_In, filter_In. split; [by apply list_elem_of_In|done].
Qed.

Lemma elem_of_models_list (es : list (string * node)) (name : string) :
  name ∈ models_list es ↔
  (∃ sz bytes, (name, File sz bytes) ∈ es) ∧ suffix name = ".models".
Proof.
  unfold models_list. rewrite list_elem_of_fmap. split.
  - intros [[n x] [-> Hin]]. apply list_elem_of_In, filter_In in Hin.
    destruct Hin as [Hin Hfile]. apply andb_true_iff in Hfile as [Hfile Hsuf].
    destruct x as [sz bytes|]; [|discriminate]. apply String.eqb_eq in Hsuf.
    split; [|done]. exists sz, bytes. by apply list_elem_of_In.
  - intros [(sz & bytes & Hin) Hsuf]. exists (name, File sz bytes). split; [done|].
    apply list_elem_of_In, filter_In. split; [by apply list_elem_of_In|].
    simpl. by apply String.eqb_eq.
Qed.

Lemma models_list_files (es : list (string * node)) (name : string) :
  name ∈ models_list es → name ∈ file_set es.
Proof. rewrite elem_of_models_list, elem_of_file_set. by intros [? _]. Qed.

(** With distinct names, an entry is what its name resolves to. *)
Lemma lookup_entry_wf (es : list (string * node)) (name : string) (x : node) :
  wf_entries es → (name, x) ∈ es → lookup_entry es name = Some x.
Proof.
  unfold wf_entries. induction es as [|[n y] es IH]; intros Hwf Hin.
  - by apply elem_of_nil in Hin.
  - simpl in *. apply NoDup_cons in Hwf as [Hfresh Hwf].
    apply elem_of_cons in Hin as [Heq|Hin].
    + injection Heq as <- <-. by rewrite String.eqb_refl.
    + destruct (String.eqb_spec n name) as [->|Hne]; [|by apply IH].
      exfalso. apply Hfresh. apply list_elem_of_fmap. by exists (name, x).
Qed.

Lemma lookup_file (es : list (string * node)) (name : string) :
  wf_entries es → name ∈ file_set es →
  ∃ sz bytes, lookup_entry es name = Some (File sz bytes).
Proof.
  intros Hwf (sz & bytes & Hin)%elem_of_file_set.
  exists sz, bytes. by apply lookup_entry_wf.
Qed.

Lemma lookup_entry_elem_of (es : list (string * node)) (name : string) (x : node) :
  lookup_entry es name = Some x → (name, x) ∈ es.
Proof.
  induction es as [|[n y] es IH]; simpl; [discriminate|].
  destruct (String.eqb_spec n name) as [->|Hne].
  - intros [= ->]. apply elem_of_cons. by left.
  - intros Hl. apply elem_of_cons. right. by apply IH.
Qed.

(** ** The steps of [validate_bundle] *)

Lemma required_present (es : list (string * node)) :
  REQUIRED_FILES ⊆ file_set es →
  bool_decide (REQUIRED_FILES ∖ file_set es = ∅) = true.
Proof. intros Hreq. apply bool_decide_eq_true. set_solver. Qed.

Lemma required_absent (es : list (string * node)) :
  ¬ REQUIRED_FILES ⊆ file_set es →
  bool_decide (REQUIRED_FILES ∖ file_set es = ∅) = false.
Proof.
  intros Hreq. apply bool_decide_eq_false. intros Hempty. apply Hreq.
  intros x Hx. destruct (decide (x ∈ file_set es)) as [|Hnot]; [done|].
  exfalso. assert (x ∈ REQUIRED_FILES ∖ file_set es) by set_solver.
  set_solver.
Qed.

Lemma Sorted_filter (f : string → bool) (l : list string) :
  Sorted String.le l → Sorted String.le (List.filter f l).
Proof.
  intros Hs. apply Sorted_StronglySorted in Hs; [|apply _].
  apply StronglySorted_Sorted.
  induction Hs as [|x l Hs IH Hall]; simpl; [constructor|].
  destruct (f x); [|exact IH].
  constructor; [exact IH|].
  apply List.Forall_forall. intros y Hy. apply filter_In in Hy as [Hy _].
  revert y Hy. by apply List.Forall_forall.
Qed.

Lemma elem_of_missing_files (es : list (string * node)) (name : string) :
  name ∈ missing_files es ↔ name ∈ REQUIRED_FILES ∖ file_set es.
Proof.
  unfold missing_files.
  rewrite list_elem_of_In, filter_In, negb_true_iff, bool_decide_eq_false.
  rewrite <- list_elem_of_In. unfold REQUIRED_FILES. set_solver.
Qed.

Lemma sorted_missing (order : set_order) (es : list (string * node)) :
  sorted (order (REQUIRED_FILES ∖ file_set es)) = missing_files es.
Proof.
  apply sorted_order_eq.
  - apply Sorted_filter. repeat constructor.
  - apply NoDup_ListNoDup, List.NoDup_filter, NoDup_ListNoDup.
    repeat constructor; set_solver.
  - apply elem_of_missing_files.
Qed.

Lemma missing_files_nil (es : list (string * node)) :
  missing_files es = [] ↔ REQUIRED_FILES ⊆ file_set es.
Proof.
  split.
  - intros Hnil x Hx. destruct (decide (x ∈ file_set es)) as [|Hnot]; [done|].
    assert (Hin : x ∈ missing_files es) by (apply elem_of_missing_files; set_solver).
    rewrite Hnil in Hin. by apply elem_of_nil in Hin.
  - intros Hreq. apply elem_of_nil_inv. intros x Hx%elem_of_missing_files.
    set_solver.
Qed.

Lemma validate_bundle_missing (order : set_order) (safe_load : list byte → res yaml)
    (p : Path) (es : list (string * node)) (errors : list string) :
  missing_files es ≠ [] →
  validate_bundle order safe_load p es errors =
  Ok (errors ++ [path_str p +:+ ": missing files: " +:+ join (missing_files es)]).
Proof.
  intros Hmissing. unfold validate_bundle.
  rewrite required_absent by (by rewrite <- missing_files_nil).
  cbn [negb]. by rewrite sorted_missing.
Qed.

Lemma validate_bundle_models (order : set_order) (safe_load : list byte → res yaml)
    (p : Path) (es : list (string * node)) (errors : list string) :
  missing_files es = [] → length (models_list es) ≠ 1%nat →
  validate_bundle order safe_load p es errors =
  Ok (errors ++ [path_str p +:+ ": must contain exactly one .models file"]).
Proof.
  intros Hreq%missing_files_nil Hcount. unfold validate_bundle.
  rewrite required_present by done. cbn [negb].
  by destruct (Nat.eqb_spec (length (models_list es)) 1).
Qed.

Lemma file_resolves (es : list (string * node)) (name : string) :
  name ∈ file_set es → is_Some (lookup_entry es name).
Proof.
  intros (sz & bytes & Hin)%elem_of_file_set.
  induction es as [|[n x] es IH]; [by apply elem_of_nil in Hin|].
  simpl. destruct (String.eqb n name) eqn:Heq; [by eexists|].
  apply IH. apply elem_of_cons in Hin as [Hhd|]; [|done].
  injection Hhd as <- <-. by rewrite String.eqb_refl in Heq.
Qed.

Lemma size_check_ok (p : Path) (es : list (string * node)) (names errors : list string) :
  (∀ name, name ∈ names → is_Some (lookup_entry es name)) →
  size_check p es names errors = Ok (errors ++ size_errors p es names).
Proof.
  revert errors. induction names as [|name names IH]; intros errors Hres.
  - simpl. by rewrite app_nil_r.
  - destruct (Hres name) as [x Hx]; [by left|].
    cbn [size_check]. unfold stat_size, size_errors, oversize in *.
    cbn [List.filter]. rewrite Hx.
    assert (Hstep : ∀ errs, size_check p es names errs
      = Ok (errs ++ map (size_message p)
              (List.filter (λ name, match lookup_entry es name with
                 | Some x => (MAX_SIZE_BYTES <? node_size x)%Z
                 | None => false end) names))).
    { intros errs. apply IH. intros n Hn. apply Hres. by right. }
    destruct x as [sz bytes|sz sub]; cbn [node_size mbind res_bind];
      rewrite Hstep; destruct (MAX_SIZE_BYTES <? sz)%Z;
      cbn [map]; by rewrite <- ?app_assoc.
Qed.

Lemma sized_resolves (order : set_order) (es : list (string * node)) (name : string) :
  REQUIRED_FILES ⊆ file_set es → name ∈ order (sized es) →
  is_Some (lookup_entry es name).
Proof.
  intros Hreq Hin. apply file_resolves. apply elem_of_order in Hin.
  unfold sized in Hin. apply elem_of_union in Hin as [Hin|Hin]; [by apply Hreq|].
  apply elem_of_list_to_set in Hin. by apply models_list_files.
Qed.

(** A bundle that has the required files and one [.models] file gets the
    errors of the unknown-file check, of the size check and of the metadata
    and hash steps, in this order. *)
Lemma validate_bundle_checks (order : set_order) (safe_load : list byte → res yaml)
    (p : Path) (es : list (string * node)) (errors : list string) :
  REQUIRED_FILES ⊆ file_set es → length (models_list es) = 1%nat →
  validate_bundle order safe_load p es errors =
  (tail ← metadata_errors safe_load p es;
   Ok (errors ++ unknown_errors p es ++ size_errors p es (order (sized es)) ++ tail)).
Proof.
  intros Hreq Hmodels. unfold validate_bundle.
  rewrite required_present, Hmodels by done. cbn [negb Nat.eqb].
  fold (sized es). fold (allowed es).
  rewrite (sorted_order_elements order (file_set es ∖ allowed es)).
  fold (unknown_files es).
  rewrite size_check_ok by (intros name; by apply sized_resolves).
  cbn [mbind res_bind].
  assert (Hprefix : (match unknown_files es with
            | [] => errors
            | _ :: _ => errors ++ [path_str p +:+ ": unknown files present: "
                                     +:+ join (unknown_files es)]
            end) = errors ++ unknown_errors p es).
  { unfold unknown_errors. destruct (unknown_files es); [by rewrite app_nil_r|done]. }
  rewrite Hprefix. unfold metadata_errors.
  destruct (load_metadata safe_load es "metadata.yaml") as [meta|exc];
    [|by rewrite <- !app_assoc].
  rewrite (sorted_order_elements order).
  destruct (bool_decide (REQUIRED_META_FIELDS ∖ str_keys meta = ∅));
    cbn [negb mbind res_bind]; [|by rewrite <- !app_assoc].
  destruct (or_empty_dict (dict_get meta "hashes")) as [| | | | |hashes|];
    cbn [mbind res_bind]; try by rewrite <- !app_assoc.
  destruct (bool_decide (REQUIRED_HASH_FIELDS ∖ str_keys hashes = ∅));
    cbn [negb mbind res_bind]; [|by rewrite <- !app_assoc].
  destruct (sha256_file es "workflow_api.json") as [api_hash|];
    cbn [mbind res_bind]; [|done].
  destruct (sha256_file es "workflow_original.json") as [original_hash|];
    cbn [mbind res_bind]; [|done].
  unfold hash_errors.
  destruct (str_ne api_hash _), (str_ne original_hash _);
    by rewrite <- ?app_assoc, ?app_nil_r.
Qed.

(** ** Reading and comparing hashes *)

Lemma sha256_file_lookup (es : list (string * node)) (name : string) (sz : Z)
    (bytes : list byte) :
  lookup_entry es name = Some (File sz bytes) →
  sha256_file es name = Ok (sha256_hex bytes).
Proof.
  intros Hl. unfold sha256_file, open_rb. rewrite Hl. cbn [mbind res_bind].
  rewrite read_chunks_update by lia. reflexivity.
Qed.

Lemma str_ne_false (s : string) (v : yaml) : str_ne s v = false ↔ v = YStr s.
Proof.
  destruct v; simpl; try (split; [discriminate|congruence]).
  rewrite negb_false_iff, String.eqb_eq. split; congruence.
Qed.

Lemma str_ne_true (s : string) (v : yaml) : str_ne s v = true ↔ v ≠ YStr s.
Proof.
  rewrite <- str_ne_false. destruct (str_ne s v); split; congruence.
Qed.

Lemma str_keys_nonempty (items : list (yaml * yaml)) (k : string) :
  k ∈ str_keys items → truthy (YMap items) = true.
Proof. destruct items; [set_solver|done]. Qed.

Lemma fields_present (required keys : gset string) :
  required ⊆ keys → bool_decide (required ∖ keys = ∅) = true.
Proof. intros Hsub. apply bool_decide_eq_true. set_solver. Qed.

Lemma fields_absent (required keys : gset string) :
  ¬ required ⊆ keys → bool_decide (required ∖ keys = ∅) = false.
Proof.
  intros Hsub. apply bool_decide_eq_false. intros Hempty. apply Hsub.
  intros x Hx. destruct (decide (x ∈ keys)) as [|Hnot]; [done|].
  assert (x ∈ required ∖ keys) by set_solver. set_solver.
Qed.

(** ** Validation never raises on a well-formed directory *)

Lemma metadata_errors_ok (safe_load : list byte → res yaml) (p : Path)
    (es : list (string * node)) :
  wf_entries es → REQUIRED_FILES ⊆ file_set es →
  ∃ tail, metadata_errors safe_load p es = Ok tail.
Proof.
  intros Hwf Hreq. unfold metadata_errors.
  destruct (load_metadata safe_load es "metadata.yaml") as [meta|exc]; [|by eexists].
  destruct (negb (bool_decide (REQUIRED_META_FIELDS ∖ str_keys meta = ∅)));
    [by eexists|].
  destruct (or_empty_dict (dict_get meta "hashes")) as [| | | | |hashes|];
    try by eexists.
  destruct (negb (bool_decide (REQUIRED_HASH_FIELDS ∖ str_keys hashes = ∅)));
    [by eexists|].
  destruct (lookup_file es "workflow_api.json") as (sz1 & b1 & H1); [done| |].
  { apply Hreq. unfold REQUIRED_FILES. set_solver. }
  destruct (lookup_file es "workflow_original.json") as (sz2 & b2 & H2); [done| |].
  { apply Hreq. unfold REQUIRED_FILES. set_solver. }
  rewrite (sha256_file_lookup _ _ _ _ H1), (sha256_file_lookup _ _ _ _ H2).
  by eexists.
Qed.

(** What a bundle adds does not depend on the errors found before. *)
Lemma validate_bundle_frame (order : set_order) (safe_load : list byte → res yaml)
    (p : Path) (es : list (string * node)) (errors : list string) :
  wf_entries es →
  validate_bundle order safe_load p es errors =
  Ok (errors ++ bundle_errors order safe_load p es).
Proof.
  intros Hwf. unfold bundle_errors.
  destruct (decide (missing_files es = [])) as [Hreq|Hmissing];
    [|by rewrite !validate_bundle_missing].
  destruct (decide (length (models_list es) = 1%nat)) as [Hmodels|Hmodels];
    [|by rewrite !validate_bundle_models].
  pose proof Hreq as Hreq'%missing_files_nil.
  rewrite !validate_bundle_checks by done.
  destruct (metadata_errors_ok safe_load p es) as [tail ->]; done.
Qed.

(** ** The directory tree *)

Lemma elem_of_concat {A} (x : A) (ls : list (list A)) :
  x ∈ concat ls ↔ ∃ l, x ∈ l ∧ l ∈ ls.
Proof.
  rewrite list_elem_of_In, in_concat. split.
  - intros (l & Hl & Hx). exists l. by rewrite !list_elem_of_In.
  - intros (l & Hx & Hl). exists l. by rewrite <- !list_elem_of_In.
Qed.

Lemma node_induction (P : node → Prop) :
  (∀ sz bytes, P (File sz bytes)) →
  (∀ sz es, Forall (fun e => P (snd e)) es → P (Dir sz es)) →
  ∀ n, P n.
Proof.
  intros Hfile Hdir. fix IH 1. intros [sz bytes|sz es]; [apply Hfile|apply Hdir].
  induction es as [|[name x] es IHes]; constructor; [apply IH|apply IHes].
Qed.

Lemma wf_node_dir (sz : Z) (es : list (string * node)) :
  wf_node (Dir sz es) ↔ wf_entries es ∧ Forall (fun e => wf_node (snd e)) es.
Proof.
  cbn [wf_node]. apply and_iff_compat_l.
  induction es as [|[name x] es IH]; [by split; [constructor|]|].
  rewrite Forall_cons, <- IH. done.
Qed.

Lemma rglob_dir (p : Path) (sz : Z) (es : list (string * node)) :
  rglob p (Dir sz es) =
  map (fun e => (child p (fst e), snd e)) es ++
  concat (map (fun e => rglob (child p (fst e)) (snd e)) es).
Proof.
  cbn [rglob]. f_equal.
  induction es as [|[name x] es IH]; [done|]. cbn [map concat fst snd]. by rewrite IH.
Qed.

Lemma resolve_wf (n x : node) (rel : list string) :
  wf_node n → resolve n rel = Some x → wf_node x.
Proof.
  revert n. induction rel as [|name rel IH]; intros n Hwf; cbn [resolve].
  - by intros [= <-].
  - destruct n as [|sz es]; [done|].
    destruct (lookup_entry es name) as [y|] eqn:Hl; [|done].
    apply IH. apply wf_node_dir in Hwf as [_ Hall].
    apply lookup_entry_elem_of in Hl.
    rewrite Forall_forall in Hall. by apply (Hall (name, y)).
Qed.

(** What [rglob] yields are the entries that the non-empty relative paths
    lead to. *)
Lemma elem_of_rglob (root : Path) (n : node) (p : Path) (x : node) :
  wf_node n →
  (p, x) ∈ rglob root n ↔ ∃ rel, rel ≠ [] ∧ p = root ++ rel ∧ resolve n rel = Some x.
Proof.
  revert root p x. induction n as [sz bytes|sz es IH] using node_induction;
    intros root p x Hwf.
  - cbn [rglob]. split; [by intros ?%elem_of_nil|].
    intros ([|name rel] & Hrel & _ & Hres); done.
  - apply wf_node_dir in Hwf as [Hnames Hall].
    rewrite rglob_dir, elem_of_app, list_elem_of_fmap. split.
    + intros [([name y] & [= -> ->] & Hin)|Hdeep].
      * exists [name]. split; [done|]. split; [done|].
        cbn [resolve fst snd]. by rewrite (lookup_entry_wf es name y).
      * apply elem_of_concat in Hdeep as (l & Hpx & Hl).
        apply list_elem_of_fmap in Hl as ([name y] & -> & Hin).
        cbn [fst snd] in Hpx.
        rewrite Forall_forall in IH, Hall.
        apply (IH (name, y) Hin) in Hpx as (rel & Hrel & -> & Hres);
          [|by apply (Hall (name, y))].
        exists (name :: rel). split; [done|].
        split; [unfold child; by rewrite <- app_assoc|].
        cbn [resolve]. by rewrite (lookup_entry_wf es name y).
    + intros ([|name rel] & Hrel & -> & Hres); [done|]. cbn [resolve] in Hres.
      destruct (lookup_entry es name) as [y|] eqn:Hl; [|done].
      apply lookup_entry_elem_of in Hl.
      destruct rel as [|name' rel].
      * left. exists (name, y). cbn [resolve] in Hres. injection Hres as <-.
        done.
      * right. apply elem_of_concat.
        exists (rglob (child root name) y). split.
        -- rewrite Forall_forall in IH, Hall.
           apply (IH (name, y) Hl); [by apply (Hall (name, y))|].
           exists (name' :: rel). split; [done|].
           split; [unfold child; by rewrite <- app_assoc|done].
        -- apply list_elem_of_fmap. by exists (name, y).
Qed.

Lemma find_bundles_wf (root : Path) (n : node) :
  wf_node n →
  Forall (fun pn => wf_entries (entries_of (snd pn))) (find_bundles root n).
Proof.
  intros Hwf. apply Forall_forall. intros [p x] Hin. unfold find_bundles in Hin.
  apply list_elem_of_In, filter_In in Hin as [Hin _]. apply list_elem_of_In in Hin.
  apply elem_of_rglob in Hin as (rel & _ & _ & Hres); [|done].
  apply resolve_wf in Hres; [|done]. cbn [snd].
  destruct x as [|sz es]; [constructor|]. by apply wf_node_dir in Hres as [? _].
Qed.

(** ** The run over all bundles *)

Lemma validate_all_ok (order : set_order) (safe_load : list byte → res yaml)
    (bundles : list (Path * node)) (errors : list string) :
  Forall (fun pn => wf_entries (entries_of (snd pn))) bundles →
  validate_all order safe_load bundles errors =
  Ok (errors ++ concat (map (fun pn =>
        bundle_errors order safe_load (fst pn) (entries_of (snd pn))) bundles)).
Proof.
  revert errors. induction bundles as [|[p x] bundles IH]; intros errors Hwf.
  - cbn. by rewrite app_nil_r.
  - apply Forall_cons in Hwf as [Hhead Hrest]. cbn [validate_all].
    rewrite validate_bundle_frame by done. cbn [mbind res_bind].
    rewrite IH by done. cbn [map concat fst snd]. by rewrite <- app_assoc.
Qed.

Lemma concat_nil_iff {A} (ls : list (list A)) :
  concat ls = [] ↔ Forall (fun l => l = []) ls.
Proof.
  induction ls as [|l ls IH]; cbn [concat]; [by split; [constructor|]|].
  rewrite Forall_cons, <- IH. split.
  - by intros [-> ->]%app_eq_nil.
  - by intros [-> ->].
Qed.

(** ** Each path is yielded once *)

Lemma rglob_below (root : Path) (n : node) (p : Path) :
  wf_node n → p ∈ map fst (rglob root n) → ∃ rel, rel ≠ [] ∧ p = root ++ rel.
Proof.
  intros Hwf ([p' x] & -> & Hin)%list_elem_of_fmap.
  apply elem_of_rglob in Hin as (rel & Hrel & -> & _); [|done]. by exists rel.
Qed.

Lemma NoDup_deep (root : Path) (es : list (string * node)) :
  wf_entries es →
  Forall (fun e => wf_node (snd e)) es →
  Forall (fun e => ∀ r, wf_node (snd e) → NoDup (map fst (rglob r (snd e)))) es →
  NoDup (map fst (concat (map (fun e => rglob (child root (fst e)) (snd e)) es))).
Proof.
  unfold wf_entries. induction es as [|[name y] es IH]; intros Hnames Hwf Hsub.
  - constructor.
  - cbn [map concat fst snd] in *. rewrite map_app.
    apply NoDup_cons in Hnames as [Hfresh Hnames].
    apply Forall_cons in Hwf as [Hy Hwf]. apply Forall_cons in Hsub as [Hy' Hsub].
    apply NoDup_app. split; [by apply Hy'|]. split; [|by apply IH].
    intros p (rel & Hrel & ->)%rglob_below; [|done].
    intros ([p' x] & Hp & Hin)%list_elem_of_fmap. cbn [fst] in Hp.
    apply elem_of_concat in Hin as (l & Hin & Hl).
    apply list_elem_of_fmap in Hl as ([name' y'] & -> & Hentry). cbn [fst snd] in Hin.
    rewrite Forall_forall in Hwf.
    apply elem_of_rglob in Hin as (rel' & Hrel' & -> & _);
      [|by apply (Hwf (name', y'))].
    unfold child in Hp. rewrite <- !app_assoc in Hp.
    apply app_inv_head in Hp. injection Hp as -> _.
    apply Hfresh. apply list_elem_of_fmap. by exists (name', y').
Qed.

Lemma NoDup_rglob (root : Path) (n : node) :
  wf_node n → NoDup (map fst (rglob root n)).
Proof.
  revert root. induction n as [sz bytes|sz es IH] using node_induction;
    intros root Hwf; [constructor|].
  apply wf_node_dir in Hwf as [Hnames Hall].
  rewrite rglob_dir, map_app. apply NoDup_app. split; [|split].
  - rewrite map_map. cbn [fst].
    change (NoDup (map (fun e : string * node => child root (fst e)) es)).
    rewrite <- (map_map fst (child root)).
    apply NoDup_fmap_2; [|exact Hnames].
    intros a b Hab. unfold child in Hab. by apply app_inj_tail in Hab as [_ ?].
  - intros p ([p' x] & -> & Hin)%list_elem_of_fmap.
    apply list_elem_of_fmap in Hin as ([name y] & [= -> ->] & Hentry).
    intros ([p' x'] & Hp & Hin)%list_elem_of_fmap. cbn [fst] in Hp.
    apply elem_of_concat in Hin as (l & Hin & Hl).
    apply list_elem_of_fmap in Hl as ([name' y'] & -> & Hentry'). cbn [fst snd] in Hin.
    rewrite Forall_forall in Hall.
    apply elem_of_rglob in Hin as (rel & Hrel & -> & _);
      [|by apply (Hall (name', y'))].
    apply (f_equal length) in Hp. unfold child in Hp.
    rewrite !length_app in Hp. cbn [length] in Hp.
    destruct rel; [done|]. cbn [length] in Hp. lia.
  - apply NoDup_deep; [done..|].
    rewrite Forall_forall in IH |- *. intros e He r Hwf. by apply IH.
Qed.

Lemma NoDup_filter_fst {A B} (f : A * B → bool) (l : list (A * B)) :
  NoDup (map fst l) → NoDup (map fst (List.filter f l)).
Proof.
  induction l as [|e l IH]; [done|]. cbn [map List.filter].
  intros [Hfresh Hl]%NoDup_cons. destruct (f e); [|by apply IH].
  cbn [map]. apply NoDup_cons. split; [|by apply IH].
  intros (e' & Heq & Hin)%list_elem_of_fmap. apply Hfresh.
  apply list_elem_of_fmap. exists e'. split; [done|].
  apply list_elem_of_In, filter_In in Hin as [Hin _]. by apply list_elem_of_In.
Qed.

(** ** Required files (step 1) *)

(** C3. A bundle directory that lacks one or more of [metadata.yaml],
    [workflow_api.json] and [workflow_original.json] among its regular files
    gets exactly one new error, which names exactly the missing files (in
    sorted order), and nothing else: validation stops there, so the outcome
    carries no unknown-file, size, metadata or hash error. *)
Theorem missing_files_single_error (order : set_order)
    (safe_load : list byte → res yaml) (p : Path) (es : list (string * node))
    (errors : list string) :
  missing_files es ≠ [] →
  validate_bundle order safe_load p es errors =
    Ok (errors ++ [path_str p +:+ ": missing files: " +:+ join (missing_files es)])
  ∧ (∀ name, name ∈ missing_files es ↔
       name ∈ REQUIRED_FILES ∧ ¬ ∃ sz bytes, (name, File sz bytes) ∈ es)
  ∧ NoDup (missing_files es) ∧ Sorted String.le (missing_files es).
Proof.
  intros Hmissing. split; [by apply validate_bundle_missing|]. split.
  - intros name. rewrite elem_of_missing_files, elem_of_difference.
    by rewrite elem_of_file_set.
  - split.
    + apply NoDup_ListNoDup, List.NoDup_filter, NoDup_ListNoDup.
      apply (bool_decide_unpack _). by vm_compute.
    + apply Sorted_filter. repeat constructor.
Qed.

(** ** The [.models] file (step 2) *)

Lemma length_append (s t : string) :
  String.length (s +:+ t) = (String.length s + String.length t)%nat.
Proof. induction s as [|c s IH]; simpl; [reflexivity|]. by rewrite IH. Qed.

Lemma rfind_lt (c : ascii) (s : string) (i : nat) :
  rfind c s = Some i → (i < String.length s)%nat.
Proof.
  revert i. induction s as [|a s IH]; intros i; simpl; [discriminate|].
  destruct (rfind c s) as [j|].
  - intros [= <-]. specialize (IH j eq_refl). lia.
  - destruct (Ascii.eqb a c); [|discriminate]. intros [= <-]. lia.
Qed.

Lemma substring_full (s : string) : String.substring 0 (String.length s) s = s.
Proof. induction s as [|a s IH]; simpl; [done|]. by rewrite IH. Qed.

Lemma substring_split (s : string) (i : nat) :
  (i ≤ String.length s)%nat →
  s = String.substring 0 i s +:+ String.substring i (String.length s - i) s
  ∧ String.length (String.substring 0 i s) = i.
Proof.
  revert i. induction s as [|a s IH]; intros i Hi.
  - destruct i; [done|simpl in Hi; lia].
  - destruct i as [|i].
    + rewrite Nat.sub_0_r, substring_full. done.
    + simpl in Hi. destruct (IH i) as [Hs Hl]; [lia|].
      simpl. split; [rewrite Hs at 1; reflexivity|by rewrite Hl].
Qed.

Lemma rfind_stem (stem : string) :
  rfind "." (stem +:+ ".models") = Some (String.length stem).
Proof.
  induction stem as [|a stem IH]; [reflexivity|].
  change (rfind "." (String a stem +:+ ".models"))
    with (match rfind "." (stem +:+ ".models") with
          | Some i => Some (S i)
          | None => if Ascii.eqb a "." then Some O else None
          end).
  by rewrite IH.
Qed.

Lemma substring_stem (stem ending : string) :
  String.substring (String.length stem) (String.length ending) (stem +:+ ending)
  = ending.
Proof.
  induction stem as [|a stem IH]; [apply substring_full|exact IH].
Qed.

(** The names whose [suffix] is [.models] are those that end in [.models]
    after a stem that is not empty. *)
Lemma suffix_models (name : string) :
  suffix name = ".models" ↔ ∃ stem, stem ≠ "" ∧ name = stem +:+ ".models".
Proof.
  unfold suffix. split.
  - destruct (rfind "." name) as [i|] eqn:Hfind; [|discriminate].
    destruct (Nat.ltb_spec 0 i) as [Hpos|]; [|discriminate].
    destruct (Nat.ltb_spec i (String.length name - 1)) as [Hlt|]; [|discriminate].
    cbn [andb]. intros Hsub.
    destruct (substring_split name i) as [Hname Hlen]; [lia|].
    exists (String.substring 0 i name). split.
    + intros Hempty. rewrite Hempty in Hlen. simpl in Hlen. lia.
    + by rewrite <- Hsub.
  - intros (stem & Hstem & ->). rewrite rfind_stem, length_append.
    assert (Hpos : (0 < String.length stem)%nat)
      by (destruct stem; [done|simpl; lia]).
    destruct (Nat.ltb_spec 0 (String.length stem)) as [_|]; [|lia].
    destruct (Nat.ltb_spec (String.length stem)
                (String.length stem + String.length ".models" - 1)) as [_|Hge];
      [|simpl in Hge; lia].
    cbn [andb].
    replace (String.length stem + String.length ".models" - String.length stem)%nat
      with (String.length ".models") by lia.
    apply substring_stem.
Qed.

(** C5, as the code has it.  A bundle that contains the three required
    files and in which the number of regular files with the suffix
    [.models] (a name ending in [.models] after a stem that is not empty,
    see [suffix_models]) is zero or more than one gets exactly one new
    error, [must contain exactly one .models file], and nothing else: no
    unknown-file, size, metadata or hash error. *)
Theorem models_count_single_error (order : set_order)
    (safe_load : list byte → res yaml) (p : Path) (es : list (string * node))
    (errors : list string) :
  missing_files es = [] → length (models_list es) ≠ 1%nat →
  validate_bundle order safe_load p es errors =
  Ok (errors ++ [path_str p +:+ ": must contain exactly one .models file"]).
Proof. apply validate_bundle_models. Qed.

(** C5 counted by names ending in [.models] fails: next to [demo.models],
    the hidden file [.models] makes two such names, yet its suffix is empty,
    so the bundle passes the count and [.models] is reported as an unknown
    file. *)
Lemma models_named_counterexample :
  missing_files hidden_models_bundle = [] ∧
  count_named_models hidden_models_bundle = 2%nat ∧
  suffix ".models" = "" ∧
  validate_bundle sorted_order (table_load documents) demo_dir
    hidden_models_bundle []
  = Ok ["/srv/workflows/demo: unknown files present: .models"].
Proof. vm_compute. repeat split. Qed.

(** ** Unknown files (step 3) *)

Lemma lookup_entry_filter (f : string * node → bool) (es : list (string * node))
    (name : string) :
  (∀ x, (name, x) ∈ es → f (name, x) = true) →
  lookup_entry (List.filter f es) name = lookup_entry es name.
Proof.
  induction es as [|[n x] es IH]; intros Hkeep; [done|].
  cbn [List.filter lookup_entry].
  destruct (String.eqb_spec n name) as [->|Hne].
  - rewrite Hkeep by (by left). cbn [lookup_entry]. by rewrite String.eqb_refl.
  - assert (Hrest : lookup_entry (List.filter f es) name = lookup_entry es name).
    { apply IH. intros y Hy. apply Hkeep. by right. }
    destruct (f (n, x)); [|done]. cbn [lookup_entry].
    by destruct (String.eqb_spec n name).
Qed.

Lemma filter_absorb {A} (f g : A → bool) (l : list A) :
  (∀ x, x ∈ l → g x = true → f x = true) →
  List.filter g (List.filter f l) = List.filter g l.
Proof.
  induction l as [|x l IH]; intros Himp; [done|]. cbn [List.filter].
  assert (Hrest : List.filter g (List.filter f l) = List.filter g l).
  { apply IH. intros y Hy. apply Himp. by right. }
  destruct (f x) eqn:Hf, (g x) eqn:Hg; cbn [List.filter]; rewrite ?Hg, ?Hrest; try done.
  rewrite Himp in Hf; [done|by left|done].
Qed.

Lemma models_allowed (es : list (string * node)) (name : string) :
  name ∈ models_list es → name ∈ allowed es.
Proof. unfold allowed. rewrite elem_of_union, elem_of_list_to_set. by right. Qed.

Lemma models_without_unknown (es : list (string * node)) :
  models_list (without_unknown es) = models_list es.
Proof.
  unfold models_list, without_unknown. f_equal. apply filter_absorb.
  intros [n x] Hin Hmodel. cbn [fst snd] in *.
  apply andb_true_iff in Hmodel as [Hfile Hsuf].
  apply orb_true_iff. right. apply bool_decide_eq_true, models_allowed.
  apply elem_of_models_list. split; [|by apply String.eqb_eq].
  destruct x as [sz bytes|]; [|done]. by exists sz, bytes.
Qed.

Lemma allowed_without_unknown (es : list (string * node)) :
  allowed (without_unknown es) = allowed es.
Proof. unfold allowed. by rewrite models_without_unknown. Qed.

Lemma sized_without_unknown (es : list (string * node)) :
  sized (without_unknown es) = sized es.
Proof. unfold sized. by rewrite models_without_unknown. Qed.

Lemma files_without_unknown (es : list (string * node)) :
  file_set (without_unknown es) = file_set es ∩ allowed es.
Proof.
  apply set_eq. intros name.
  rewrite elem_of_intersection, !elem_of_file_set. unfold without_unknown. split.
  - intros (sz & bytes & Hin). apply list_elem_of_In, filter_In in Hin as [Hin Hkeep].
    cbn [fst snd is_file negb orb] in Hkeep. apply bool_decide_eq_true in Hkeep.
    split; [|done]. exists sz, bytes. by apply list_elem_of_In.
  - intros [(sz & bytes & Hin) Hallowed]. exists sz, bytes.
    apply list_elem_of_In, filter_In. split; [by apply list_elem_of_In|].
    cbn [fst snd is_file negb orb]. by apply bool_decide_eq_true.
Qed.

Lemma lookup_without_unknown (es : list (string * node)) (name : string) :
  name ∈ allowed es →
  lookup_entry (without_unknown es) name = lookup_entry es name.
Proof.
  intros Hallowed. apply lookup_entry_filter. intros x _.
  cbn [fst snd]. apply orb_true_iff. right. by apply bool_decide_eq_true.
Qed.

Lemma required_allowed (es : list (string * node)) (name : string) :
  name ∈ REQUIRED_FILES → name ∈ allowed es.
Proof. unfold allowed. set_solver. Qed.

Lemma sized_allowed (es : list (string * node)) (name : string) :
  name ∈ sized es → name ∈ allowed es.
Proof. unfold sized, allowed. set_solver. Qed.

Lemma unknown_without_unknown (es : list (string * node)) :
  unknown_files (without_unknown es) = [].
Proof.
  unfold unknown_files. rewrite files_without_unknown, allowed_without_unknown.
  replace (file_set es ∩ allowed es ∖ allowed es) with (∅ : gset string)
    by set_solver.
  by rewrite elements_empty.
Qed.

Lemma size_errors_without_unknown (p : Path) (es : list (string * node))
    (names : list string) :
  (∀ name, name ∈ names → name ∈ allowed es) →
  size_errors p (without_unknown es) names = size_errors p es names.
Proof.
  intros Hnames. unfold size_errors. f_equal.
  induction names as [|name names IH]; [done|]. cbn [List.filter].
  assert (Hsame : oversize (without_unknown es) name = oversize es name).
  { unfold oversize. rewrite lookup_without_unknown; [done|]. apply Hnames. by left. }
  rewrite Hsame, IH; [done|]. intros n Hn. apply Hnames. by right.
Qed.

Lemma metadata_errors_without_unknown (safe_load : list byte → res yaml)
    (p : Path) (es : list (string * node)) :
  metadata_errors safe_load p (without_unknown es) = metadata_errors safe_load p es.
Proof.
  unfold metadata_errors, load_metadata, sha256_file, open_rb.
  rewrite !lookup_without_unknown; [done|apply required_allowed..];
    unfold REQUIRED_FILES; set_solver.
Qed.

Lemma elem_of_unknown_files (es : list (string * node)) (name : string) :
  name ∈ unknown_files es ↔ name ∈ file_set es ∧ name ∉ allowed es.
Proof.
  unfold unknown_files. rewrite elem_of_sorted, elem_of_elements. set_solver.
Qed.

(** C6. In a bundle that has the required files and one [.models] file,
    the regular files outside the allow-list (the required files,
    [README.md], [preview.png] and the [.models] file) yield exactly one
    new error, which lists them (sorted); and the error is not fatal: the
    errors of the size check and of the metadata and hash steps follow it,
    and validation goes on exactly as it does for the same bundle without
    these files, which has no unknown file left. *)
Theorem unknown_files_single_error (order : set_order)
    (safe_load : list byte → res yaml) (p : Path) (es : list (string * node))
    (errors : list string) :
  missing_files es = [] → length (models_list es) = 1%nat →
  unknown_files es ≠ [] →
  let report := path_str p +:+ ": unknown files present: "
                  +:+ join (unknown_files es) in
  (∀ name, name ∈ unknown_files es ↔ name ∈ file_set es ∧ name ∉ allowed es)
  ∧ validate_bundle order safe_load p es errors =
      (tail ← metadata_errors safe_load p es;
       Ok (errors ++ [report] ++ size_errors p es (order (sized es)) ++ tail))
  ∧ validate_bundle order safe_load p es errors =
      validate_bundle order safe_load p (without_unknown es) (errors ++ [report])
  ∧ unknown_files (without_unknown es) = [].
Proof.
  intros Hreq%missing_files_nil Hmodels Hunknown report.
  assert (Hreport : unknown_errors p es = [report]).
  { unfold unknown_errors, report. by destruct (unknown_files es). }
  split; [apply elem_of_unknown_files|].
  split; [by rewrite validate_bundle_checks, Hreport|].
  split; [|apply unknown_without_unknown].
  assert (Hreq' : REQUIRED_FILES ⊆ file_set (without_unknown es)).
  { rewrite files_without_unknown. intros name Hname.
    apply elem_of_intersection. split; [by apply Hreq|by apply required_allowed]. }
  assert (Hmodels' : length (models_list (without_unknown es)) = 1%nat)
    by (by rewrite models_without_unknown).
  rewrite (validate_bundle_checks _ _ _ es) by done.
  rewrite (validate_bundle_checks _ _ _ (without_unknown es)) by done.
  rewrite metadata_errors_without_unknown. unfold unknown_errors at 2.
  rewrite unknown_without_unknown, Hreport, sized_without_unknown.
  rewrite size_errors_without_unknown
    by (intros name Hname%elem_of_order; by apply sized_allowed).
  destruct (metadata_errors safe_load p es); cbn [mbind res_bind]; [|done].
  by rewrite <- !app_assoc.
Qed.

(** ** Sizes (step 4) *)

Lemma lookup_resized (es : list (string * node)) (name : string) :
  lookup_entry (resized es) name = resize <$> lookup_entry es name.
Proof.
  induction es as [|[n x] es IH]; [done|]. cbn [resized map lookup_entry fst snd].
  destruct (String.eqb n name); [done|exact IH].
Qed.

Lemma filter_resized (f g : string * node → bool) (es : list (string * node)) :
  (∀ e, f (fst e, resize (snd e)) = g e) →
  map fst (List.filter f (resized es)) = map fst (List.filter g es).
Proof.
  intros Hfg. induction es as [|e es IH]; [done|].
  cbn [resized map List.filter]. rewrite Hfg. fold (resized es).
  destruct (g e); cbn [map fst]; by rewrite IH.
Qed.

Lemma files_resized (es : list (string * node)) : file_set (resized es) = file_set es.
Proof.
  unfold file_set. f_equal. apply filter_resized. by intros [n [sz bytes|sz sub]].
Qed.

Lemma models_resized (es : list (string * node)) :
  models_list (resized es) = models_list es.
Proof.
  unfold models_list. apply filter_resized. by intros [n [sz bytes|sz sub]].
Qed.

Lemma unknown_errors_resized (p : Path) (es : list (string * node)) :
  unknown_errors p (resized es) = unknown_errors p es.
Proof.
  unfold unknown_errors, unknown_files, allowed.
  by rewrite files_resized, models_resized.
Qed.

Lemma size_errors_resized (p : Path) (es : list (string * node)) (names : list string) :
  size_errors p (resized es) names = [].
Proof.
  unfold size_errors. induction names as [|name names IH]; [done|].
  cbn [List.filter]. unfold oversize at 1. rewrite lookup_resized.
  by destruct (lookup_entry es name) as [[sz bytes|sz sub]|].
Qed.

Lemma open_rb_resized (es : list (string * node)) (name : string) :
  open_rb (resized es) name = open_rb es name.
Proof.
  unfold open_rb. rewrite lookup_resized.
  by destruct (lookup_entry es name) as [[sz bytes|sz sub]|].
Qed.

Lemma metadata_errors_resized (safe_load : list byte → res yaml) (p : Path)
    (es : list (string * node)) :
  metadata_errors safe_load p (resized es) = metadata_errors safe_load p es.
Proof.
  unfold metadata_errors, load_metadata, sha256_file.
  by rewrite !open_rb_resized.
Qed.

(** C8. In a bundle that has the required files and one [.models] file,
    each of these four files whose size is strictly above
    [2 * 1024 * 1024] bytes gets one error of its own, which names it; a
    file of at most that size (so one of exactly 2 MiB) gets none; and the
    size errors do not stop validation: the errors of the metadata and hash
    steps follow them, the same as for the bundle with all sizes reported
    as zero. *)
Theorem size_errors_reported (order : set_order)
    (safe_load : list byte → res yaml) (p : Path) (es : list (string * node))
    (errors : list string) (models_file : string) :
  wf_entries es → missing_files es = [] → models_list es = [models_file] →
  ∃ oversized : list string,
    NoDup oversized
    ∧ (∀ name, name ∈ oversized ↔
         name ∈ REQUIRED_FILES ∪ {[ models_file ]} ∧
         ∃ sz bytes, (name, File sz bytes) ∈ es ∧ 2 * 1024 * 1024 < sz)
    ∧ (∀ name bytes, (name, File (2 * 1024 * 1024) bytes) ∈ es → name ∉ oversized)
    ∧ validate_bundle order safe_load p es errors =
        (tail ← metadata_errors safe_load p es;
         Ok (errors ++ unknown_errors p es
               ++ map (fun name => path_str p +:+ ": " +:+ name +:+ " exceeds 2 MB")
                    oversized
               ++ tail))
    ∧ validate_bundle order safe_load p (resized es) errors =
        (tail ← metadata_errors safe_load p es;
         Ok (errors ++ unknown_errors p es ++ tail)).
Proof.
  intros Hwf Hreq%missing_files_nil Hmodels.
  assert (Hsized : sized es = REQUIRED_FILES ∪ {[ models_file ]}).
  { unfold sized. rewrite Hmodels. set_solver. }
  assert (Hover : ∀ name, name ∈ List.filter (oversize es) (order (sized es)) ↔
            name ∈ REQUIRED_FILES ∪ {[ models_file ]} ∧
            ∃ sz bytes, (name, File sz bytes) ∈ es ∧ 2 * 1024 * 1024 < sz).
  { intros name. rewrite list_elem_of_In, filter_In, <- list_elem_of_In.
    rewrite elem_of_order, Hsized. unfold oversize. split.
    - intros [Hin Hbig]. split; [done|].
      destruct (lookup_file es name) as (sz & bytes & Hl); [done| |].
      + rewrite <- Hsized in Hin. unfold sized in Hin.
        apply elem_of_union in Hin as [Hin|Hin]; [by apply Hreq|].
        apply elem_of_list_to_set in Hin. by apply models_list_files.
      + rewrite Hl in Hbig. cbn [node_size] in Hbig. exists sz, bytes.
        split; [by apply lookup_entry_elem_of|]. by apply Z.ltb_lt in Hbig.
    - intros [Hin (sz & bytes & Hentry & Hbig)]. split; [done|].
      rewrite (lookup_entry_wf es name (File sz bytes)) by done.
      cbn [node_size]. by apply Z.ltb_lt. }
  exists (List.filter (oversize es) (order (sized es))).
  split; [apply NoDup_ListNoDup, List.NoDup_filter, NoDup_ListNoDup, NoDup_order|].
  split; [exact Hover|]. split.
  - intros name bytes Hentry [_ (sz & bytes' & Hentry' & Hbig)]%Hover.
    pose proof (lookup_entry_wf es name _ Hwf Hentry) as H1.
    pose proof (lookup_entry_wf es name _ Hwf Hentry') as H2.
    rewrite H1 in H2. injection H2 as <- _. lia.
  - assert (Hlen : length (models_list es) = 1%nat) by (by rewrite Hmodels).
    split; [by rewrite validate_bundle_checks|].
    rewrite validate_bundle_checks.
    + rewrite metadata_errors_resized, unknown_errors_resized, size_errors_resized.
      done.
    + by rewrite files_resized.
    + by rewrite models_resized.
Qed.

(** ** Metadata and hashes (steps 5 to 8) *)

(** C4. In a bundle that reaches the hash verification, each of
    [workflow_api.json] and [workflow_original.json] is hashed with
    SHA-256, and the digest, a string of 64 lowercase hexadecimal digits,
    is compared with the value recorded under [api_json], respectively
    [original_json]: a recorded value that is not this very string gives an
    error of its own, whatever the outcome of the other comparison, and a
    recorded value equal to the digest gives none. *)
Theorem hash_verification (order : set_order) (safe_load : list byte → res yaml)
    (p : Path) (es : list (string * node)) (errors : list string)
    (meta hashes : list (yaml * yaml))
    (api_size original_size : Z) (api_bytes original_bytes : list byte) :
  missing_files es = [] → length (models_list es) = 1%nat →
  load_metadata safe_load es "metadata.yaml" = Ok meta →
  REQUIRED_META_FIELDS ⊆ str_keys meta →
  dict_get meta "hashes" = YMap hashes →
  REQUIRED_HASH_FIELDS ⊆ str_keys hashes →
  lookup_entry es "workflow_api.json" = Some (File api_size api_bytes) →
  lookup_entry es "workflow_original.json" = Some (File original_size original_bytes) →
  let api_hash := sha256_hex api_bytes in
  let original_hash := sha256_hex original_bytes in
  ∃ api_errors original_errors,
    validate_bundle order safe_load p es errors =
      Ok (errors ++ unknown_errors p es ++ size_errors p es (order (sized es))
            ++ api_errors ++ original_errors)
    ∧ (dict_get hashes "api_json" = YStr api_hash → api_errors = [])
    ∧ (dict_get hashes "api_json" ≠ YStr api_hash →
       api_errors = [path_str p +:+ ": api_json hash mismatch"])
    ∧ (dict_get hashes "original_json" = YStr original_hash → original_errors = [])
    ∧ (dict_get hashes "original_json" ≠ YStr original_hash →
       original_errors = [path_str p +:+ ": original_json hash mismatch"])
    ∧ Forall (fun c => lower_hex c = true) (list_ascii_of_string api_hash)
    ∧ Forall (fun c => lower_hex c = true) (list_ascii_of_string original_hash)
    ∧ String.length api_hash = 64%nat ∧ String.length original_hash = 64%nat.
Proof.
  intros Hreq%missing_files_nil Hmodels Hload Hfields Hhashes Hkeys Hapi Horiginal
    api_hash original_hash.
  exists (if str_ne api_hash (dict_get hashes "api_json")
          then [path_str p +:+ ": api_json hash mismatch"] else []),
         (if str_ne original_hash (dict_get hashes "original_json")
          then [path_str p +:+ ": original_json hash mismatch"] else []).
  split.
  - rewrite validate_bundle_checks by done. unfold metadata_errors.
    rewrite Hload, fields_present by done. cbn [negb].
    rewrite Hhashes. unfold or_empty_dict.
    rewrite (str_keys_nonempty hashes "api_json")
      by (apply Hkeys; unfold REQUIRED_HASH_FIELDS; set_solver).
    rewrite fields_present by done. cbn [negb].
    rewrite (sha256_file_lookup _ _ _ _ Hapi), (sha256_file_lookup _ _ _ _ Horiginal).
    reflexivity.
  - repeat split; try apply hexdigest_chars.
    + intros Heq. by apply str_ne_false in Heq as ->.
    + intros Hne. by apply str_ne_true in Hne as ->.
    + intros Heq. by apply str_ne_false in Heq as ->.
    + intros Hne. by apply str_ne_true in Hne as ->.
Qed.

(** C2, as the code has it.  In a bundle that has the required files and
    one [.models] file and whose metadata parses with all required fields,
    the value of [hashes] is first replaced by an empty mapping when it is
    false in Python's sense (null, false, zero, an empty string, sequence or
    mapping).  A value that is true and not a mapping gives the error
    [metadata hashes must be a mapping]; a false value, or a mapping that
    lacks [api_json] or [original_json], gives the one error
    [metadata hashes missing api_json/original_json].  Either error is the
    last one of the bundle: no hash is compared. *)
Theorem hashes_field_check (order : set_order) (safe_load : list byte → res yaml)
    (p : Path) (es : list (string * node)) (errors : list string)
    (meta : list (yaml * yaml)) :
  missing_files es = [] → length (models_list es) = 1%nat →
  load_metadata safe_load es "metadata.yaml" = Ok meta →
  REQUIRED_META_FIELDS ⊆ str_keys meta →
  let value := dict_get meta "hashes" in
  let before := errors ++ unknown_errors p es ++ size_errors p es (order (sized es)) in
  (truthy value = true → is_mapping value = false →
   validate_bundle order safe_load p es errors =
   Ok (before ++ [path_str p +:+ ": metadata hashes must be a mapping"]))
  ∧ (truthy value = false ∨
     (∃ hashes, value = YMap hashes ∧ ¬ REQUIRED_HASH_FIELDS ⊆ str_keys hashes) →
     validate_bundle order safe_load p es errors =
     Ok (before ++ [path_str p +:+ ": metadata hashes missing api_json/original_json"])).
Proof.
  intros Hreq%missing_files_nil Hmodels Hload Hfields value before.
  rewrite validate_bundle_checks by done. unfold metadata_errors.
  rewrite Hload, fields_present by done. cbn [negb]. fold value.
  unfold or_empty_dict, before. split.
  - intros Htrue Hmap. rewrite Htrue.
    destruct value; try discriminate; cbn [mbind res_bind]; by rewrite <- !app_assoc.
  - intros [Hfalse|(hashes & Hvalue & Hkeys)].
    + rewrite Hfalse. cbn [mbind res_bind]. rewrite fields_absent.
      * cbn [negb mbind res_bind]. by rewrite <- !app_assoc.
      * cbn [str_keys]. unfold REQUIRED_HASH_FIELDS. set_solver.
    + rewrite Hvalue.
      assert (Hstep : (if truthy (YMap hashes) then YMap hashes else YMap [])
                      = YMap hashes ∨
                      (if truthy (YMap hashes) then YMap hashes else YMap [])
                      = YMap [] ∧ hashes = []).
      { destruct hashes; [by right|by left]. }
      destruct Hstep as [->|[-> ->]]; rewrite fields_absent by done;
        cbn [negb mbind res_bind]; by rewrite <- !app_assoc.
Qed.

(** C2 as stated fails for a value of [hashes] that is not a mapping but is
    false in Python's sense: with [hashes: null] the bundle, otherwise in
    order, gets [metadata hashes missing api_json/original_json] and not
    [metadata hashes must be a mapping]. *)
Lemma hashes_null_counterexample :
  let es := bundle_with_meta null_hashes_text in
  missing_files es = [] ∧ length (models_list es) = 1%nat ∧
  (∃ meta, load_metadata (table_load documents) es "metadata.yaml" = Ok meta ∧
           bool_decide (REQUIRED_META_FIELDS ⊆ str_keys meta) = true ∧
           dict_get meta "hashes" = YNull) ∧
  is_mapping YNull = false ∧
  validate_bundle sorted_order (table_load documents) demo_dir es []
  = Ok ["/srv/workflows/demo: metadata hashes missing api_json/original_json"].
Proof.
  cbv zeta. split; [reflexivity|]. split; [reflexivity|]. split.
  - eexists. split; [vm_compute; reflexivity|]. by vm_compute.
  - split; [reflexivity|]. vm_compute. reflexivity.
Qed.

Lemma sorted_all_fields (order : set_order) :
  sorted (order (REQUIRED_META_FIELDS ∖ ∅)) =
  [ "author"; "compatible_cindergrace_versions"; "contains_non_manager_nodes";
    "description"; "hashes"; "min_comfyui_version"; "name";
    "non_manager_nodes_info"; "recommended_vram_gb"; "required_models";
    "tags"; "version" ].
Proof.
  apply sorted_order_eq.
  - repeat constructor.
  - apply (bool_decide_unpack _). by vm_compute.
  - intros x. unfold REQUIRED_META_FIELDS. set_solver.
Qed.

(** C10, as the code has it.  [load_metadata] turns a [metadata.yaml] that
    parses to null (an empty file does) into the empty mapping instead of
    refusing it; so in a bundle that has the required files and one
    [.models] file, what follows the unknown-file and size errors is the
    error [metadata missing fields] with all twelve required keys, and not
    an [invalid metadata.yaml] error. *)
Theorem null_metadata_missing_fields (order : set_order)
    (safe_load : list byte → res yaml) (p : Path) (es : list (string * node))
    (errors : list string) (sz : Z) (bytes : list byte) :
  missing_files es = [] → length (models_list es) = 1%nat →
  lookup_entry es "metadata.yaml" = Some (File sz bytes) →
  safe_load bytes = Ok YNull →
  load_metadata safe_load es "metadata.yaml" = Ok []
  ∧ validate_bundle order safe_load p es errors =
    Ok (errors ++ unknown_errors p es ++ size_errors p es (order (sized es))
          ++ [path_str p +:+ ": metadata missing fields: "
                +:+ "author, compatible_cindergrace_versions, "
                +:+ "contains_non_manager_nodes, description, hashes, "
                +:+ "min_comfyui_version, name, non_manager_nodes_info, "
                +:+ "recommended_vram_gb, required_models, tags, version"]).
Proof.
  intros Hreq%missing_files_nil Hmodels Hentry Hnull.
  assert (Hload : load_metadata safe_load es "metadata.yaml" = Ok []).
  { unfold load_metadata, open_rb. rewrite Hentry. cbn [mbind res_bind].
    by rewrite Hnull. }
  split; [exact Hload|].
  rewrite validate_bundle_checks by done. unfold metadata_errors.
  rewrite Hload. cbn [str_keys].
  rewrite fields_absent by (unfold REQUIRED_META_FIELDS; set_solver).
  cbn [negb mbind res_bind].
  by rewrite <- (sorted_order_elements sorted_order), sorted_all_fields.
Qed.

(** C10 as stated fails for a bundle that does not get as far as the
    metadata: a directory holding only an empty [metadata.yaml] is a bundle,
    its metadata parses to null, and it gets the [missing files] error and
    no [metadata missing fields] error. *)
Lemma null_metadata_counterexample :
  is_bundle (demo_dir, Dir 4096 lone_metadata) = true ∧
  lookup_entry lone_metadata "metadata.yaml" = Some (File 0 []) ∧
  table_load documents [] = Ok YNull ∧
  validate_bundle sorted_order (table_load documents) demo_dir lone_metadata []
  = Ok ["/srv/workflows/demo: missing files: workflow_api.json, workflow_original.json"].
Proof. vm_compute. repeat split. Qed.

(** ** Discovery and exit status *)

(** C1, as the code has it.  The bundles are the directories below the
    root that have an entry called [metadata.yaml], each listed once, in
    the order in which the traversal yields them: no sorting is applied,
    and the bundles directly under the root come first, in the order in
    which the root lists them. *)
Theorem bundles_discovered (root : Path) (n : node) :
  wf_node n →
  NoDup (map fst (find_bundles root n))
  ∧ (∀ p, p ∈ map fst (find_bundles root n) ↔
       ∃ rel sz es, rel ≠ [] ∧ p = root ++ rel ∧
         resolve n rel = Some (Dir sz es) ∧ exists_in es "metadata.yaml" = true)
  ∧ (∃ deeper,
       find_bundles root n =
       List.filter is_bundle
         (map (fun e => (child root (fst e), snd e)) (entries_of n)) ++ deeper).
Proof.
  intros Hwf. split; [|split].
  - apply NoDup_filter_fst, NoDup_rglob, Hwf.
  - intros p. unfold find_bundles. rewrite list_elem_of_fmap. split.
    + intros ([p' x] & -> & Hin). apply list_elem_of_In, filter_In in Hin as [Hin Hb].
      apply list_elem_of_In, elem_of_rglob in Hin as (rel & Hrel & -> & Hres); [|done].
      unfold is_bundle in Hb. cbn [snd] in Hb. destruct x as [|sz es]; [done|].
      by exists rel, sz, es.
    + intros (rel & sz & es & Hrel & -> & Hres & Hmeta).
      exists (root ++ rel, Dir sz es). split; [done|].
      apply list_elem_of_In, filter_In. split; [|done].
      apply list_elem_of_In, elem_of_rglob; [done|]. by exists rel.
  - unfold find_bundles. destruct n as [sz bytes|sz es]; [by exists []|].
    rewrite rglob_dir, List.filter_app. by eexists.
Qed.

(** C1 as stated fails: the bundles come in listing order, here [b] before
    [a], which is not sorted by path. *)
Lemma bundles_unsorted_counterexample :
  map fst (find_bundles demo_root demo_tree)
  = [ ["srv"; "workflows"; "b"]; ["srv"; "workflows"; "a"] ]
  ∧ path_leb ["srv"; "workflows"; "b"] ["srv"; "workflows"; "a"] = false
  ∧ ¬ Sorted (fun p q => path_leb p q = true)
        (map fst (find_bundles demo_root demo_tree)).
Proof.
  split; [reflexivity|]. split; [reflexivity|].
  intros Hsorted. change (map fst (find_bundles demo_root demo_tree))
    with [ ["srv"; "workflows"; "b"]; ["srv"; "workflows"; "a"] ] in Hsorted.
  apply Sorted_inv in Hsorted as [_ Hhd]. apply HdRel_inv in Hhd. discriminate.
Qed.

(** C7. On a well-formed tree [main] returns, and the value it returns,
    the exit status, is 1 exactly when the root does not exist or the
    validation of some bundle found an error, and 0 otherwise; a root
    without any bundle gives 0 and prints the warning alone. *)
Theorem exit_status (order : set_order) (safe_load : list byte → res yaml)
    (root : Path) (at_root : option node) :
  (∀ n, at_root = Some n → wf_node n) →
  ∃ out code,
    main order safe_load root at_root = Ok (out, code)
    ∧ (code = 1 ↔
         at_root = None ∨
         ∃ n p x, at_root = Some n ∧ (p, x) ∈ find_bundles root n ∧
                  validate_bundle order safe_load p (entries_of x) [] ≠ Ok [])
    ∧ (code = 0 ∨ code = 1)
    ∧ (∀ n, at_root = Some n → find_bundles root n = [] →
         code = 0 ∧
         out = ["WARNING: No workflow bundles found (metadata.yaml missing)"]).
Proof.
  intros Hwf. destruct at_root as [n|]; cbn [main].
  2:{ eexists _, 1. split; [done|]. split; [by split; [left|]|].
      split; [by right|]. done. }
  specialize (Hwf n eq_refl). pose proof (find_bundles_wf root n Hwf) as Hall.
  assert (Hnew : ∀ p x, (p, x) ∈ find_bundles root n →
            validate_bundle order safe_load p (entries_of x) [] ≠ Ok [] ↔
            bundle_errors order safe_load p (entries_of x) ≠ []).
  { intros p x Hin. rewrite Forall_forall in Hall.
    rewrite validate_bundle_frame by (by apply (Hall (p, x))).
    cbn [app]. split; congruence. }
  destruct (find_bundles root n) as [|b bundles] eqn:Hfound.
  { eexists _, 0. split; [done|]. split; [|split; [by left|done]].
    split; [done|]. intros [|(n' & p & x & [= <-] & Hin & _)]; [done|].
    rewrite Hfound in Hin. by apply elem_of_nil in Hin. }
  rewrite validate_all_ok by done. cbn [mbind res_bind app].
  destruct (concat _) as [|err errs] eqn:Hcat.
  - eexists _, 0. split; [done|].
    split; [|split; [by left|intros n' [= <-] Hnil; congruence]].
    split; [done|]. intros [|(n' & p & x & [= <-] & Hin & Herr)]; [done|].
    exfalso. rewrite Hfound in Hin. apply (Hnew p x Hin) in Herr. apply Herr.
    apply concat_nil_iff in Hcat. rewrite Forall_forall in Hcat.
    apply Hcat. apply list_elem_of_fmap. by exists (p, x).
  - eexists _, 1. split; [done|].
    split; [|split; [by right|intros n' [= <-] Hnil; congruence]].
    split; [|done]. intros _. right.
    assert (Hsome : ¬ Forall (fun l : list string => l = [])
              (map (fun pn => bundle_errors order safe_load (fst pn)
                                (entries_of (snd pn))) (b :: bundles))).
    { intros Hnil%concat_nil_iff. by rewrite Hnil in Hcat. }
    apply not_Forall_Exists in Hsome; [|intros l; apply _].
    apply Exists_exists in Hsome as (l & Hl & Hne).
    apply list_elem_of_fmap in Hl as ([p x] & -> & Hin).
    exists n, p, x. split; [done|]. rewrite Hfound. split; [done|]. by apply Hnew.
Qed.

(** ** Streaming and one-pass digests *)

(** C9. The digest that [sha256_file] computes, by reading the file in
    chunks of [1024 * 1024] bytes and feeding each chunk to the hash object,
    is the SHA-256 of the whole content computed in one pass: the digest of
    the hash object fed the content in one piece, which is the digest of
    the padded content compressed block after block.  This holds for every
    content, shorter or longer than a chunk, and for every positive chunk
    size. *)
Theorem sha256_file_one_pass (es : list (string * node)) (name : string) (sz : Z)
    (content : list byte) :
  lookup_entry es name = Some (File sz content) →
  sha256_file es name = Ok (sha256_one_pass content)
  ∧ sha256_file es name
    = Ok (hashlib.hexdigest (hashlib.update hashlib.sha256 content))
  ∧ ∀ size : nat, (0 < size)%nat →
      hashlib.hexdigest (read_chunks size content hashlib.sha256)
      = sha256_one_pass content.
Proof.
  intros Hentry. rewrite <- sha256_hex_one_pass.
  split; [by apply (sha256_file_lookup es name sz)|].
  split; [by apply (sha256_file_lookup es name sz)|].
  intros size Hsize. by rewrite read_chunks_update.
Qed.

Example read_chunks_small :
  read_chunks 4 (bytes_of_string "hello, chunked world") hashlib.sha256
  = hashlib.update hashlib.sha256 (bytes_of_string "hello, chunked world").
Proof. vm_compute. reflexivity. Qed.

Example one_pass_abc :
  sha256_one_pass (bytes_of_string "abc")
  = "ba7816bf8f01cfea414140de5dae2223b00361a396177a9cb410ff61f20015ad".
Proof. vm_compute. reflexivity. Qed.

(** * Further properties of the script *)

(** ** Metadata that does not load, or lacks fields *)

Lemma elem_of_str_keys (items : list (yaml * yaml)) (k : string) :
  k ∈ str_keys items ↔ ∃ v, (YStr k, v) ∈ items.
Proof.
  induction items as [|[key v] items IH].
  - cbn [str_keys]. split; [set_solver|]. by intros [v ?%elem_of_nil].
  - assert (Hrest : (∃ v', (YStr k, v') ∈ (key, v) :: items) ↔
                    key = YStr k ∨ ∃ v', (YStr k, v') ∈ items).
    { split.
      - intros [v' [Heq|Hin]%elem_of_cons]; [left; congruence|right; by exists v'].
      - intros [->|[v' Hin]]; [exists v; by left|exists v'; by right]. }
    rewrite Hrest, <- IH.
    destruct key; cbn [str_keys]; try (split; [by right|by intros [?|?]]).
    rewrite elem_of_union, elem_of_singleton. split.
    + intros [->|?]; [by left|by right].
    + intros [[= ->]|?]; [by left|by right].
Qed.

Lemma elem_of_missing_fields (meta : list (yaml * yaml)) (field : string) :
  field ∈ missing_fields meta ↔ field ∈ REQUIRED_META_FIELDS ∖ str_keys meta.
Proof.
  unfold missing_fields.
  rewrite list_elem_of_In, filter_In, negb_true_iff, bool_decide_eq_false.
  rewrite <- list_elem_of_In. unfold REQUIRED_META_FIELDS. set_solver.
Qed.

Lemma sorted_missing_fields (meta : list (yaml * yaml)) :
  sorted (elements (REQUIRED_META_FIELDS ∖ str_keys meta)) = missing_fields meta.
Proof.
  rewrite <- (sorted_order_elements sorted_order). apply sorted_order_eq.
  - apply Sorted_filter. repeat constructor.
  - apply NoDup_ListNoDup, List.NoDup_filter, NoDup_ListNoDup.
    apply (bool_decide_unpack _). by vm_compute.
  - apply elem_of_missing_fields.
Qed.

Lemma missing_fields_nil (meta : list (yaml * yaml)) :
  missing_fields meta = [] ↔ REQUIRED_META_FIELDS ⊆ str_keys meta.
Proof.
  split.
  - intros Hnil x Hx. destruct (decide (x ∈ str_keys meta)) as [|Hnot]; [done|].
    assert (Hin : x ∈ missing_fields meta)
      by (apply elem_of_missing_fields; set_solver).
    rewrite Hnil in Hin. by apply elem_of_nil in Hin.
  - intros Hreq. apply elem_of_nil_inv. intros x Hx%elem_of_missing_fields.
    set_solver.
Qed.

Lemma load_metadata_file (safe_load : list byte → res yaml)
    (es : list (string * node)) (sz : Z) (bytes : list byte) :
  lookup_entry es "metadata.yaml" = Some (File sz bytes) →
  load_metadata safe_load es "metadata.yaml" =
  (doc ← safe_load bytes;
   match or_empty_dict doc with
   | YMap items => Ok items
   | _ => Raise "metadata.yaml must be a mapping"
   end).
Proof. intros Hentry. unfold load_metadata, open_rb. by rewrite Hentry. Qed.

(** X1. When [metadata.yaml] cannot be decoded or parsed, a bundle that has
    the required files and one [.models] file gets, after its unknown-file
    and size errors, the one error [invalid metadata.yaml] carrying the text
    of the exception, and nothing after it: no field or hash is checked. *)
Theorem metadata_parse_error (order : set_order) (safe_load : list byte → res yaml)
    (p : Path) (es : list (string * node)) (errors : list string)
    (sz : Z) (bytes : list byte) (exc : string) :
  missing_files es = [] → length (models_list es) = 1%nat →
  lookup_entry es "metadata.yaml" = Some (File sz bytes) →
  safe_load bytes = Raise exc →
  validate_bundle order safe_load p es errors =
  Ok (errors ++ structure_errors order p es
        ++ [path_str p +:+ ": invalid metadata.yaml (" +:+ exc +:+ ")"]).
Proof.
  intros Hreq%missing_files_nil Hmodels Hentry Hraise.
  rewrite validate_bundle_checks by done. unfold metadata_errors.
  rewrite (load_metadata_file _ _ _ _ Hentry), Hraise. cbn [mbind res_bind].
  unfold structure_errors. by rewrite <- !app_assoc.
Qed.

(** X2. When [metadata.yaml] holds a document that is true in Python's
    sense and is not a mapping (a sequence, a string, a number),
    [load_metadata] raises and the bundle gets the one error
    [invalid metadata.yaml (metadata.yaml must be a mapping)], with nothing
    after it. *)
Theorem metadata_not_mapping (order : set_order) (safe_load : list byte → res yaml)
    (p : Path) (es : list (string * node)) (errors : list string)
    (sz : Z) (bytes : list byte) (doc : yaml) :
  missing_files es = [] → length (models_list es) = 1%nat →
  lookup_entry es "metadata.yaml" = Some (File sz bytes) →
  safe_load bytes = Ok doc → truthy doc = true → is_mapping doc = false →
  load_metadata safe_load es "metadata.yaml" = Raise "metadata.yaml must be a mapping"
  ∧ validate_bundle order safe_load p es errors =
    Ok (errors ++ structure_errors order p es
          ++ [path_str p
                +:+ ": invalid metadata.yaml (metadata.yaml must be a mapping)"]).
Proof.
  intros Hreq%missing_files_nil Hmodels Hentry Hdoc Htrue Hmap.
  assert (Hload : load_metadata safe_load es "metadata.yaml"
                  = Raise "metadata.yaml must be a mapping").
  { rewrite (load_metadata_file _ _ _ _ Hentry), Hdoc. cbn [mbind res_bind].
    unfold or_empty_dict. rewrite Htrue. by destruct doc. }
  split; [exact Hload|].
  rewrite validate_bundle_checks by done. unfold metadata_errors.
  rewrite Hload. unfold structure_errors. by rewrite <- !app_assoc.
Qed.

(** X3. When the metadata loads but lacks required fields, the bundle gets
    the one error [metadata missing fields] listing, in sorted order,
    exactly the required fields that are not string keys of the mapping,
    and nothing after it: the hashes are not looked at. *)
Theorem metadata_fields_missing (order : set_order)
    (safe_load : list byte → res yaml) (p : Path) (es : list (string * node))
    (errors : list string) (meta : list (yaml * yaml)) :
  missing_files es = [] → length (models_list es) = 1%nat →
  load_metadata safe_load es "metadata.yaml" = Ok meta →
  missing_fields meta ≠ [] →
  validate_bundle order safe_load p es errors =
    Ok (errors ++ structure_errors order p es
          ++ [path_str p +:+ ": metadata missing fields: "
                +:+ join (missing_fields meta)])
  ∧ (∀ field, field ∈ missing_fields meta ↔
       field ∈ REQUIRED_META_FIELDS ∧ ¬ ∃ v, (YStr field, v) ∈ meta).
Proof.
  intros Hreq%missing_files_nil Hmodels Hload Hmissing. split.
  - rewrite validate_bundle_checks by done. unfold metadata_errors.
    rewrite Hload, fields_absent by (by rewrite <- missing_fields_nil).
    cbn [negb mbind res_bind]. rewrite sorted_missing_fields.
    unfold structure_errors. by rewrite <- !app_assoc.
  - intros field. rewrite elem_of_missing_fields, elem_of_difference.
    by rewrite elem_of_str_keys.
Qed.

(** X13. A [metadata.yaml] whose document is false in Python's sense,
    whatever its type (null, [false], [0], an empty string, sequence or
    mapping), is taken as the empty mapping: [load_metadata] does not raise,
    and the bundle gets the error [metadata missing fields] with all twelve
    required fields, not the error that the document must be a mapping. *)
Theorem false_document_is_empty (order : set_order) (safe_load : list byte → res yaml)
    (p : Path) (es : list (string * node)) (errors : list string)
    (sz : Z) (bytes : list byte) (doc : yaml) :
  missing_files es = [] → length (models_list es) = 1%nat →
  lookup_entry es "metadata.yaml" = Some (File sz bytes) →
  safe_load bytes = Ok doc → truthy doc = false →
  load_metadata safe_load es "metadata.yaml" = Ok []
  ∧ validate_bundle order safe_load p es errors =
    Ok (errors ++ structure_errors order p es
          ++ [path_str p +:+ ": metadata missing fields: "
                +:+ "author, compatible_cindergrace_versions, "
                +:+ "contains_non_manager_nodes, description, hashes, "
                +:+ "min_comfyui_version, name, non_manager_nodes_info, "
                +:+ "recommended_vram_gb, required_models, tags, version"]).
Proof.
  intros Hreq%missing_files_nil Hmodels Hentry Hdoc Hfalse.
  assert (Hload : load_metadata safe_load es "metadata.yaml" = Ok []).
  { rewrite (load_metadata_file _ _ _ _ Hentry), Hdoc. cbn [mbind res_bind].
    unfold or_empty_dict. by rewrite Hfalse. }
  split; [exact Hload|].
  rewrite validate_bundle_checks by done. unfold metadata_errors.
  rewrite Hload. cbn [str_keys].
  rewrite fields_absent by (unfold REQUIRED_META_FIELDS; set_solver).
  cbn [negb mbind res_bind].
  rewrite <- (sorted_order_elements sorted_order), sorted_all_fields.
  unfold structure_errors. by rewrite <- !app_assoc.
Qed.

(** ** Bundles without errors *)

Lemma app_eq_self {A} (l new : list A) : l ++ new = l → new = [].
Proof. intros Heq. apply (app_inv_head l). by rewrite app_nil_r. Qed.

Lemma dict_get_key (items : list (yaml * yaml)) (k : string) :
  dict_get items k ≠ YNull → k ∈ str_keys items.
Proof.
  induction items as [|[key v] items IH]; cbn [dict_get str_keys]; [done|].
  destruct key; try exact IH.
  destruct (String.eqb_spec s k) as [->|_]; [set_solver|].
  intros Hget. apply elem_of_union. right. by apply IH.
Qed.

Lemma size_errors_nil (p : Path) (es : list (string * node)) (names : list string) :
  size_errors p es names = [] ↔ ∀ name, name ∈ names → oversize es name = false.
Proof.
  unfold size_errors. induction names as [|name names IH]; cbn [List.filter].
  - split; [by intros _ ? ?%elem_of_nil|done].
  - destruct (oversize es name) eqn:Hover; cbn [map].
    + split; [done|]. intros Hall.
      assert (Hfalse : oversize es name = false) by (apply Hall; by left).
      congruence.
    + rewrite IH. split.
      * intros Hall n [->|Hn]%elem_of_cons; [done|by apply Hall].
      * intros Hall n Hn. apply Hall. by right.
Qed.

Lemma unknown_errors_nil (p : Path) (es : list (string * node)) :
  unknown_errors p es = [] ↔ unknown_files es = [].
Proof. unfold unknown_errors. by destruct (unknown_files es). Qed.

Lemma hash_errors_nil (p : Path) (api_hash original_hash : string)
    (hashes : list (yaml * yaml)) :
  hash_errors p api_hash original_hash hashes = [] ↔
  dict_get hashes "api_json" = YStr api_hash ∧
  dict_get hashes "original_json" = YStr original_hash.
Proof.
  unfold hash_errors. rewrite <- !str_ne_false.
  destruct (str_ne api_hash _), (str_ne original_hash _); cbn [app];
    split; (done || by intros [? ?]).
Qed.

(** The metadata and hash steps find nothing exactly when the metadata
    loads with all fields and both recorded hashes are the digests. *)
Lemma metadata_errors_nil (safe_load : list byte → res yaml) (p : Path)
    (es : list (string * node)) (api_size original_size : Z)
    (api_bytes original_bytes : list byte) :
  lookup_entry es "workflow_api.json" = Some (File api_size api_bytes) →
  lookup_entry es "workflow_original.json" = Some (File original_size original_bytes) →
  metadata_errors safe_load p es = Ok [] ↔
  ∃ meta hashes,
    load_metadata safe_load es "metadata.yaml" = Ok meta ∧
    missing_fields meta = [] ∧
    dict_get meta "hashes" = YMap hashes ∧
    dict_get hashes "api_json" = YStr (sha256_one_pass api_bytes) ∧
    dict_get hashes "original_json" = YStr (sha256_one_pass original_bytes).
Proof.
  intros Hapi Horiginal. unfold metadata_errors.
  rewrite (sha256_file_lookup _ _ _ _ Hapi), (sha256_file_lookup _ _ _ _ Horiginal).
  rewrite !sha256_hex_one_pass. cbn [mbind res_bind]. split.
  - destruct (load_metadata safe_load es "metadata.yaml") as [meta|exc]; [|done].
    destruct (bool_decide (REQUIRED_META_FIELDS ∖ str_keys meta = ∅)) eqn:Hfields;
      cbn [negb]; [|done].
    apply bool_decide_eq_true in Hfields.
    unfold or_empty_dict.
    destruct (dict_get meta "hashes") as [| | | | |hashes|] eqn:Hget;
      cbn [truthy]; try done;
      try (match goal with |- context [if ?b then _ else _] => destruct b end;
           done).
    destruct hashes as [|item hashes]; cbn [length Nat.eqb negb].
    { cbn [str_keys]. rewrite fields_absent; [done|].
      unfold REQUIRED_HASH_FIELDS. set_solver. }
    destruct (bool_decide (REQUIRED_HASH_FIELDS ∖ str_keys (item :: hashes) = ∅));
      cbn [negb]; [|done].
    intros [= Hnil]. apply hash_errors_nil in Hnil as [Ha Ho].
    exists meta, (item :: hashes).
    split; [done|]. split; [|done].
    apply missing_fields_nil. intros x Hx.
    destruct (decide (x ∈ str_keys meta)) as [|Hnot]; [done|].
    assert (Hin : x ∈ REQUIRED_META_FIELDS ∖ str_keys meta)
      by (by apply elem_of_difference).
    rewrite Hfields in Hin. by apply not_elem_of_empty in Hin.
  - intros (meta & hashes & -> & Hfields%missing_fields_nil & Hget & Ha & Ho).
    rewrite fields_present by done. cbn [negb]. rewrite Hget.
    assert (Hkeys : REQUIRED_HASH_FIELDS ⊆ str_keys hashes).
    { intros k Hk.
      assert (Hcases : k = "api_json" ∨ k = "original_json")
        by (unfold REQUIRED_HASH_FIELDS in Hk; set_solver).
      destruct Hcases as [->| ->]; apply dict_get_key; by rewrite ?Ha, ?Ho. }
    unfold or_empty_dict.
    rewrite (str_keys_nonempty hashes "api_json")
      by (apply Hkeys; unfold REQUIRED_HASH_FIELDS; set_solver).
    rewrite fields_present by done. cbn [negb]. f_equal.
    by apply hash_errors_nil.
Qed.

Lemma sized_files (es : list (string * node)) (name : string) :
  REQUIRED_FILES ⊆ file_set es → name ∈ sized es → name ∈ file_set es.
Proof.
  intros Hreq [Hin|Hin]%elem_of_union; [by apply Hreq|].
  apply elem_of_list_to_set in Hin. by apply models_list_files.
Qed.

Lemma oversize_none (order : set_order) (es : list (string * node)) :
  wf_entries es → REQUIRED_FILES ⊆ file_set es →
  (∀ name, name ∈ order (sized es) → oversize es name = false) ↔
  (∀ name sz bytes, name ∈ sized es →
     lookup_entry es name = Some (File sz bytes) → (sz ≤ 2 * 1024 * 1024)%Z).
Proof.
  intros Hwf Hreq. unfold oversize. split.
  - intros Hall name sz bytes Hin Hentry.
    specialize (Hall name). rewrite elem_of_order, Hentry in Hall.
    cbn [node_size] in Hall. apply Z.ltb_ge. by apply Hall.
  - intros Hall name Hin%elem_of_order.
    destruct (lookup_file es name) as (sz & bytes & Hentry);
      [done|by apply sized_files|].
    rewrite Hentry. cbn [node_size]. apply Z.ltb_ge. by apply (Hall name sz bytes).
Qed.

(** X4. In a directory with distinct names, validation adds no error
    exactly when the bundle is in order: the three required files are
    there, one file has the suffix [.models], no file is outside the
    allow-list, none of the four checked files is larger than 2 MiB, the
    metadata loads as a mapping with the twelve required fields, and the
    values recorded under [hashes] are the SHA-256 digests of
    [workflow_api.json] and [workflow_original.json]. *)
Theorem bundle_clean_iff (order : set_order) (safe_load : list byte → res yaml)
    (p : Path) (es : list (string * node)) (errors : list string) :
  wf_entries es →
  validate_bundle order safe_load p es errors = Ok errors ↔
  missing_files es = [] ∧ length (models_list es) = 1%nat ∧ unknown_files es = []
  ∧ (∀ name sz bytes, name ∈ sized es →
       lookup_entry es name = Some (File sz bytes) → (sz ≤ 2 * 1024 * 1024)%Z)
  ∧ ∃ meta hashes api_size api_bytes original_size original_bytes,
      load_metadata safe_load es "metadata.yaml" = Ok meta ∧
      missing_fields meta = [] ∧
      dict_get meta "hashes" = YMap hashes ∧
      lookup_entry es "workflow_api.json" = Some (File api_size api_bytes) ∧
      lookup_entry es "workflow_original.json"
        = Some (File original_size original_bytes) ∧
      dict_get hashes "api_json" = YStr (sha256_one_pass api_bytes) ∧
      dict_get hashes "original_json" = YStr (sha256_one_pass original_bytes).
Proof.
  intros Hwf. split.
  - intros Hrun.
    destruct (decide (missing_files es = [])) as [Hreq|Hmissing].
    2:{ rewrite validate_bundle_missing in Hrun by done.
        injection Hrun as Hrun. by apply app_eq_self in Hrun. }
    destruct (decide (length (models_list es) = 1%nat)) as [Hmodels|Hmodels].
    2:{ rewrite validate_bundle_models in Hrun by done.
        injection Hrun as Hrun. by apply app_eq_self in Hrun. }
    pose proof Hreq as Hreq'%missing_files_nil.
    rewrite validate_bundle_checks in Hrun by done.
    destruct (metadata_errors safe_load p es) as [tail|exc] eqn:Htail;
      cbn [mbind res_bind] in Hrun; [|done].
    injection Hrun as Hrun. apply app_eq_self in Hrun.
    apply app_eq_nil in Hrun as [Hunknown Hrun].
    apply app_eq_nil in Hrun as [Hsizes ->].
    apply unknown_errors_nil in Hunknown. rewrite size_errors_nil in Hsizes.
    rewrite oversize_none in Hsizes by done.
    destruct (lookup_file es "workflow_api.json") as (s1 & b1 & H1); [done| |].
    { apply Hreq'. unfold REQUIRED_FILES. set_solver. }
    destruct (lookup_file es "workflow_original.json") as (s2 & b2 & H2); [done| |].
    { apply Hreq'. unfold REQUIRED_FILES. set_solver. }
    apply (metadata_errors_nil _ _ _ _ _ _ _ H1 H2) in Htail
      as (meta & hashes & Hload & Hfields & Hget & Ha & Ho).
    repeat (split; [done|]). by exists meta, hashes, s1, b1, s2, b2.
  - intros (Hreq & Hmodels & Hunknown & Hsizes & meta & hashes & s1 & b1 & s2 & b2
            & Hload & Hfields & Hget & H1 & H2 & Ha & Ho).
    pose proof Hreq as Hreq'%missing_files_nil.
    rewrite validate_bundle_checks by done.
    assert (Htail : metadata_errors safe_load p es = Ok []).
    { apply (metadata_errors_nil _ _ _ _ _ _ _ H1 H2). by exists meta, hashes. }
    rewrite Htail. cbn [mbind res_bind].
    rewrite <- (unknown_errors_nil p) in Hunknown. rewrite Hunknown.
    rewrite <- (oversize_none order), <- (size_errors_nil p) in Hsizes by done.
    rewrite Hsizes. by rewrite !app_nil_r.
Qed.

(** ** What a bundle adds to the error list *)

Lemma size_errors_length (order : set_order) (p : Path) (es : list (string * node)) :
  length (models_list es) = 1%nat →
  (length (size_errors p es (order (sized es))) ≤ 4)%nat.
Proof.
  intros Hmodels. unfold size_errors. rewrite length_map.
  etransitivity; [apply List.filter_length_le|].
  rewrite (Permutation_length (iter_perm order (sized es))).
  change (size (sized es) ≤ 4)%nat. unfold sized.
  destruct (models_list es) as [|m [|? ?]]; try discriminate.
  rewrite size_union_alt.
  assert (H1 : size REQUIRED_FILES = 3%nat) by (by vm_compute).
  assert (H2 : (size ((list_to_set [m] : gset string) ∖ REQUIRED_FILES) ≤ 1)%nat).
  { etransitivity; [apply subseteq_size, subseteq_difference_l; reflexivity|].
    cbn [list_to_set]. rewrite union_empty_r_L, size_singleton. done. }
  lia.
Qed.

Lemma metadata_errors_shape (safe_load : list byte → res yaml) (p : Path)
    (es : list (string * node)) (tail : list string) :
  metadata_errors safe_load p es = Ok tail →
  (length tail ≤ 2)%nat
  ∧ Forall (fun e => ∃ msg, e = path_str p +:+ ": " +:+ msg) tail.
Proof.
  unfold metadata_errors.
  destruct (load_metadata safe_load es "metadata.yaml") as [meta|exc].
  2:{ intros [= <-]. split; [cbn; lia|]. repeat constructor. by eexists. }
  destruct (negb (bool_decide (REQUIRED_META_FIELDS ∖ str_keys meta = ∅))).
  { intros [= <-]. split; [cbn; lia|]. repeat constructor. by eexists. }
  destruct (or_empty_dict (dict_get meta "hashes")) as [| | | | |hashes|];
    try (intros [= <-]; split; [cbn; lia|]; repeat constructor; by eexists).
  destruct (negb (bool_decide (REQUIRED_HASH_FIELDS ∖ str_keys hashes = ∅))).
  { intros [= <-]. split; [cbn; lia|]. repeat constructor. by eexists. }
  destruct (sha256_file es "workflow_api.json") as [api_hash|]; [|done].
  destruct (sha256_file es "workflow_original.json") as [original_hash|]; [|done].
  cbn [mbind res_bind]. intros [= <-]. unfold hash_errors.
  destruct (str_ne api_hash _), (str_ne original_hash _); cbn [app];
    (split; [cbn; lia|]); repeat constructor; by eexists.
Qed.

(** X5. In a directory with distinct names, validating a bundle never
    raises and only appends: the errors found before are kept as they are,
    and what is appended does not depend on them, counts at most seven
    errors (one for unknown files, four for sizes, two for hashes), and
    every one of them starts with the path of the bundle and a colon. *)
Theorem bundle_errors_shape (order : set_order) (safe_load : list byte → res yaml)
    (p : Path) (es : list (string * node)) :
  wf_entries es →
  ∃ new,
    (∀ errors, validate_bundle order safe_load p es errors = Ok (errors ++ new))
    ∧ (length new ≤ 7)%nat
    ∧ Forall (fun e => ∃ msg, e = path_str p +:+ ": " +:+ msg) new.
Proof.
  intros Hwf.
  destruct (decide (missing_files es = [])) as [Hreq|Hmissing].
  2:{ eexists. split; [intros errors; by apply validate_bundle_missing|].
      split; [cbn; lia|]. repeat constructor. by eexists. }
  destruct (decide (length (models_list es) = 1%nat)) as [Hmodels|Hmodels].
  2:{ eexists. split; [intros errors; by apply validate_bundle_models|].
      split; [cbn; lia|]. repeat constructor. by eexists. }
  pose proof Hreq as Hreq'%missing_files_nil.
  destruct (metadata_errors_ok safe_load p es Hwf Hreq') as [tail Htail].
  destruct (metadata_errors_shape _ _ _ _ Htail) as [Hlen Hscoped].
  exists (unknown_errors p es ++ size_errors p es (order (sized es)) ++ tail).
  split; [|split].
  - intros errors. by rewrite validate_bundle_checks, Htail.
  - rewrite !length_app. pose proof (size_errors_length order p es Hmodels).
    assert (length (unknown_errors p es) ≤ 1)%nat
      by (unfold unknown_errors; destruct (unknown_files es); cbn; lia).
    lia.
  - apply Forall_app. split; [|apply Forall_app; split; [|done]].
    + unfold unknown_errors. destruct (unknown_files es); repeat constructor.
      by eexists.
    + unfold size_errors. apply Forall_forall. intros e Hin.
      apply list_elem_of_fmap in Hin as (name & -> & _). by eexists.
Qed.

(** ** The report of a run *)

(** X6. On a tree with distinct names in which bundles are found, [main]
    validates every bundle, in the order of discovery, whatever the earlier
    bundles gave; it collects the errors of each bundle in that order and
    prints them all, each behind a dash, under the line
    [VALIDATION FAILED:], returning 1; when there is no error at all it
    prints the number of bundles and returns 0. *)
Theorem main_report (order : set_order) (safe_load : list byte → res yaml)
    (root : Path) (n : node) :
  wf_node n → find_bundles root n ≠ [] →
  let bundles := find_bundles root n in
  let errors := concat (map (fun pn =>
      bundle_errors order safe_load (fst pn) (entries_of (snd pn))) bundles) in
  (∀ p x earlier, (p, x) ∈ bundles →
     validate_bundle order safe_load p (entries_of x) earlier
     = Ok (earlier ++ bundle_errors order safe_load p (entries_of x)))
  ∧ validate_all order safe_load bundles [] = Ok errors
  ∧ main order safe_load root (Some n) =
    Ok (match errors with
        | [] => (["Validation OK: " +:+ pretty (length bundles) +:+ " bundle(s)"], 0)
        | _ :: _ => ("VALIDATION FAILED:" :: map (fun err => "- " +:+ err) errors, 1)
        end).
Proof.
  intros Hwf Hfound. cbv zeta.
  pose proof (find_bundles_wf root n Hwf) as Hall.
  cbn [main]. destruct (find_bundles root n) as [|b bundles]; [done|].
  rewrite validate_all_ok by done. cbn [app mbind res_bind].
  split; [|split; [done|]].
  - intros p x earlier Hin. apply validate_bundle_frame.
    rewrite Forall_forall in Hall. by apply (Hall (p, x)).
  - by destruct (concat _).
Qed.

(** X11. A root all of whose entries are files holds no bundle, even when it
    is laid out as a bundle itself: the root is never taken as a bundle, so
    [main] prints the warning and returns 0 without validating anything. *)
Theorem root_is_no_bundle (order : set_order) (safe_load : list byte → res yaml)
    (root : Path) (sz : Z) (es : list (string * node)) :
  Forall (fun e => is_file (snd e) = true) es →
  find_bundles root (Dir sz es) = []
  ∧ main order safe_load root (Some (Dir sz es))
    = Ok (["WARNING: No workflow bundles found (metadata.yaml missing)"], 0).
Proof.
  intros Hfiles.
  assert (Hnone : find_bundles root (Dir sz es) = []).
  { unfold find_bundles. rewrite rglob_dir, List.filter_app.
    assert (Hdeep : concat (map (fun e => rglob (child root (fst e)) (snd e)) es) = []).
    { induction Hfiles as [|[name x] es Hx Hrest IH]; [done|].
      cbn [map concat fst snd]. rewrite IH. by destruct x. }
    rewrite Hdeep, app_nil_r.
    induction Hfiles as [|[name x] es Hx Hrest IH]; [done|].
    cbn [map List.filter]. unfold is_bundle at 1. cbn [snd].
    destruct x; [apply IH; by inversion Hdeep|done]. }
  split; [exact Hnone|]. cbn [main]. by rewrite Hnone.
Qed.

(** X12. A directory in which [metadata.yaml] is itself a directory is
    taken as a bundle, since discovery only asks whether the name exists,
    and it then gets the [missing files] error, which names
    [metadata.yaml], since validation looks at regular files only. *)
Theorem metadata_directory (order : set_order) (safe_load : list byte → res yaml)
    (p : Path) (st : Z) (es : list (string * node)) (errors : list string)
    (sz : Z) (sub : list (string * node)) :
  wf_entries es → lookup_entry es "metadata.yaml" = Some (Dir sz sub) →
  is_bundle (p, Dir st es) = true
  ∧ "metadata.yaml" ∈ missing_files es
  ∧ validate_bundle order safe_load p es errors =
    Ok (errors ++ [path_str p +:+ ": missing files: " +:+ join (missing_files es)]).
Proof.
  intros Hwf Hentry.
  assert (Hmissing : "metadata.yaml" ∈ missing_files es).
  { apply elem_of_missing_files, elem_of_difference.
    split; [unfold REQUIRED_FILES; set_solver|].
    intros (sz' & bytes & Hfile)%elem_of_file_set.
    apply (lookup_entry_wf es _ _ Hwf) in Hfile. congruence. }
  split; [|split; [exact Hmissing|]].
  - unfold is_bundle, exists_in. cbn [snd]. by rewrite Hentry.
  - apply validate_bundle_missing. intros Hnil. rewrite Hnil in Hmissing.
    by apply elem_of_nil in Hmissing.
Qed.

(** ** Files, directories and the order of sets *)

(** X8. The files counted as [.models] files are exactly the regular files
    whose name is a stem that is not empty followed by [.models]; a file
    called just [.models] is not one of them. *)
Theorem models_files_names (es : list (string * node)) (name : string) :
  (name ∈ models_list es ↔
   (∃ sz bytes, (name, File sz bytes) ∈ es) ∧
   ∃ stem, stem ≠ "" ∧ name = stem +:+ ".models")
  ∧ ".models" ∉ models_list es.
Proof.
  split; [by rewrite elem_of_models_list, suffix_models|].
  by intros [_ Hsuffix]%elem_of_models_list.
Qed.

Lemma entry_unique (es : list (string * node)) (name : string) (x y : node) :
  wf_entries es → (name, x) ∈ es → (name, y) ∈ es → x = y.
Proof.
  intros Hwf Hx%(lookup_entry_wf es _ _ Hwf) Hy%(lookup_entry_wf es _ _ Hwf).
  congruence.
Qed.

Lemma files_files_only (es : list (string * node)) :
  file_set (files_only es) = file_set es.
Proof. unfold file_set, files_only. by rewrite filter_absorb. Qed.

Lemma models_files_only (es : list (string * node)) :
  models_list (files_only es) = models_list es.
Proof.
  unfold models_list, files_only. rewrite filter_absorb; [done|].
  by intros e _ [? _]%andb_true_iff.
Qed.

Lemma lookup_files_only (es : list (string * node)) (name : string) :
  wf_entries es → name ∈ file_set es →
  lookup_entry (files_only es) name = lookup_entry es name.
Proof.
  intros Hwf (sz & bytes & Hfile)%elem_of_file_set.
  apply lookup_entry_filter. intros x Hx. cbn [snd].
  by rewrite (entry_unique es name x (File sz bytes)).
Qed.

(** X9. In a directory with distinct names, the subdirectories of a bundle
    play no part in its validation: the outcome is the one for the regular
    files alone, so a subdirectory is never reported as an unknown file and
    never stands for a required file. *)
Theorem subdirectories_ignored (order : set_order) (safe_load : list byte → res yaml)
    (p : Path) (es : list (string * node)) (errors : list string) :
  wf_entries es →
  validate_bundle order safe_load p (files_only es) errors
  = validate_bundle order safe_load p es errors.
Proof.
  intros Hwf.
  assert (Hmissing : missing_files (files_only es) = missing_files es)
    by (unfold missing_files; by rewrite files_files_only).
  destruct (decide (missing_files es = [])) as [Hreq|Hne].
  2:{ rewrite !validate_bundle_missing by congruence. by rewrite Hmissing. }
  destruct (decide (length (models_list es) = 1%nat)) as [Hmodels|Hmodels].
  2:{ by rewrite !validate_bundle_models by (by rewrite ?models_files_only, ?Hmissing). }
  pose proof Hreq as Hreq'%missing_files_nil.
  rewrite !validate_bundle_checks
    by (by rewrite ?models_files_only, ?files_files_only).
  assert (Hsized : sized (files_only es) = sized es)
    by (unfold sized; by rewrite models_files_only).
  assert (Hunknown : unknown_errors p (files_only es) = unknown_errors p es).
  { unfold unknown_errors, unknown_files, allowed.
    by rewrite files_files_only, models_files_only. }
  assert (Hsizes : size_errors p (files_only es) (order (sized es))
                   = size_errors p es (order (sized es))).
  { unfold size_errors. f_equal. apply List.filter_ext_in.
    intros name Hin%list_elem_of_In%elem_of_order. unfold oversize.
    rewrite lookup_files_only; [done..|]. by apply sized_files. }
  assert (Htail : metadata_errors safe_load p (files_only es)
                  = metadata_errors safe_load p es).
  { unfold metadata_errors, load_metadata, sha256_file, open_rb.
    rewrite !lookup_files_only; try done; apply Hreq';
      unfold REQUIRED_FILES; set_solver. }
  by rewrite Hsized, Hunknown, Hsizes, Htail.
Qed.

Lemma Permutation_list_filter {A} (f : A → bool) (l l' : list A) :
  l ≡ₚ l' → List.filter f l ≡ₚ List.filter f l'.
Proof.
  induction 1 as [|x l l' _ IH|x y l|l l' l'' _ IH1 _ IH2]; cbn [List.filter].
  - done.
  - destruct (f x); [by constructor|done].
  - destruct (f x), (f y); try done. by constructor.
  - by etransitivity.
Qed.

(** X10. In a directory with distinct names, the order in which Python
    walks its sets does not change which errors a bundle gets: under two
    orders the errors are the same up to their order (only the size errors
    can change places). *)
Theorem set_order_irrelevant (order1 order2 : set_order)
    (safe_load : list byte → res yaml) (p : Path) (es : list (string * node)) :
  wf_entries es →
  ∃ new1 new2,
    (∀ errors, validate_bundle order1 safe_load p es errors = Ok (errors ++ new1))
    ∧ (∀ errors, validate_bundle order2 safe_load p es errors = Ok (errors ++ new2))
    ∧ new1 ≡ₚ new2
    ∧ ((length (size_errors p es (order1 (sized es))) ≤ 1)%nat → new1 = new2).
Proof.
  intros Hwf.
  destruct (decide (missing_files es = [])) as [Hreq|Hmissing].
  2:{ eexists _, _. split; [intros errors; by apply validate_bundle_missing|].
      split; [intros errors; by apply validate_bundle_missing|]. done. }
  destruct (decide (length (models_list es) = 1%nat)) as [Hmodels|Hmodels].
  2:{ eexists _, _. split; [intros errors; by apply validate_bundle_models|].
      split; [intros errors; by apply validate_bundle_models|]. done. }
  pose proof Hreq as Hreq'%missing_files_nil.
  destruct (metadata_errors_ok safe_load p es Hwf Hreq') as [tail Htail].
  assert (Hperm : size_errors p es (order1 (sized es))
                  ≡ₚ size_errors p es (order2 (sized es))).
  { unfold size_errors. apply Permutation_map, Permutation_list_filter.
    by rewrite !iter_perm. }
  exists (unknown_errors p es ++ size_errors p es (order1 (sized es)) ++ tail),
         (unknown_errors p es ++ size_errors p es (order2 (sized es)) ++ tail).
  split; [intros errors; by rewrite validate_bundle_checks, Htail|].
  split; [intros errors; by rewrite validate_bundle_checks, Htail|].
  split; [by rewrite Hperm|].
  intros Hshort. do 2 f_equal.
  destruct (size_errors p es (order1 (sized es))) as [|e [|e' l]].
  - by apply Permutation_nil_l in Hperm.
  - by apply Permutation_singleton_l in Hperm.
  - cbn [length] in Hshort. lia.
Qed.

(** ** Recorded values that are no digests *)

(** X7. In a bundle that reaches the hash verification, a value recorded
    under [api_json] or [original_json] that is not a string of 64 lowercase
    hexadecimal digits (a digest written in capitals, a number, null)
    never matches: the hash-mismatch error of that file is reported,
    whatever the file holds. *)
Theorem recorded_value_no_digest (order : set_order)
    (safe_load : list byte → res yaml) (p : Path) (es : list (string * node))
    (errors : list string) (meta hashes : list (yaml * yaml))
    (api_size original_size : Z) (api_bytes original_bytes : list byte) :
  missing_files es = [] → length (models_list es) = 1%nat →
  load_metadata safe_load es "metadata.yaml" = Ok meta →
  missing_fields meta = [] →
  dict_get meta "hashes" = YMap hashes →
  REQUIRED_HASH_FIELDS ⊆ str_keys hashes →
  lookup_entry es "workflow_api.json" = Some (File api_size api_bytes) →
  lookup_entry es "workflow_original.json" = Some (File original_size original_bytes) →
  let digest_like (v : yaml) :=
    ∃ s, v = YStr s ∧ String.length s = 64%nat ∧
         Forall (fun c => lower_hex c = true) (list_ascii_of_string s) in
  ∃ new,
    validate_bundle order safe_load p es errors = Ok (errors ++ new)
    ∧ (¬ digest_like (dict_get hashes "api_json") →
       path_str p +:+ ": api_json hash mismatch" ∈ new)
    ∧ (¬ digest_like (dict_get hashes "original_json") →
       path_str p +:+ ": original_json hash mismatch" ∈ new).
Proof.
  intros Hreq%missing_files_nil Hmodels Hload Hfields%missing_fields_nil Hget Hkeys
    Hapi Horiginal digest_like.
  eexists. split.
  - rewrite validate_bundle_checks by done. unfold metadata_errors.
    rewrite Hload, fields_present by done. cbn [negb]. rewrite Hget.
    unfold or_empty_dict.
    rewrite (str_keys_nonempty hashes "api_json")
      by (apply Hkeys; unfold REQUIRED_HASH_FIELDS; set_solver).
    rewrite fields_present by done. cbn [negb].
    rewrite (sha256_file_lookup _ _ _ _ Hapi), (sha256_file_lookup _ _ _ _ Horiginal).
    cbn [mbind res_bind]. reflexivity.
  - assert (Hdigest : ∀ bytes, digest_like (YStr (sha256_hex bytes))).
    { intros bytes. exists (sha256_hex bytes).
      destruct (hexdigest_chars (hashlib.update hashlib.sha256 bytes)) as [? ?].
      done. }
    unfold hash_errors. split; intros Hbad.
    + destruct (str_ne (sha256_hex api_bytes) (dict_get hashes "api_json")) eqn:Hne.
      * rewrite !elem_of_app. right. right. left. by left.
      * apply str_ne_false in Hne. rewrite Hne in Hbad. by destruct Hbad.
    + destruct (str_ne (sha256_hex original_bytes)
                  (dict_get hashes "original_json")) eqn:Hne.
      * rewrite !elem_of_app. right. right. right. by left.
      * apply str_ne_false in Hne. rewrite Hne in Hbad. by destruct Hbad.
Qed.

(** * The statements at concrete bundles *)

Example sha256_abc :
  sha256_hex (bytes_of_string "abc")
  = "ba7816bf8f01cfea414140de5dae2223b00361a396177a9cb410ff61f20015ad".
Proof. vm_compute. reflexivity. Qed.

Example sha256_empty :
  sha256_hex [] = "e3b0c44298fc1c149afbf4c8996fb92427ae41e4649b934ca495991b7852b855".
Proof. vm_compute. reflexivity. Qed.

Example sha256_two_blocks :
  sha256_hex (bytes_of_string "abcdbcdecdefdefgefghfghighijhijkijkljklmklmnlmnomnopnopq")
  = "248d6a61d20638b8e5c026930c3e6039a33ce45964ff2167f6ecedd419db06c1".
Proof. vm_compute. reflexivity. Qed.

Example good_bundle_passes :
  validate_bundle sorted_order (table_load documents) demo_dir good_bundle [] = Ok [].
Proof. vm_compute. reflexivity. Qed.

Lemma missing_files_single_error_witness :
  missing_files lone_metadata ≠ []
  ∧ validate_bundle sorted_order (table_load documents) demo_dir lone_metadata
      ["earlier error"]
    = Ok ["earlier error";
          "/srv/workflows/demo: missing files: workflow_api.json, workflow_original.json"].
Proof.
  assert (H : missing_files lone_metadata ≠ []) by (by vm_compute).
  split; [exact H|].
  apply (missing_files_single_error sorted_order (table_load documents)
           demo_dir lone_metadata ["earlier error"] H).
Defined.

Lemma models_count_single_error_witness :
  let es := bundle_plus "extra.models" (file_of models_text) in
  missing_files es = [] ∧ length (models_list es) ≠ 1%nat
  ∧ validate_bundle reverse_order (table_load documents) demo_dir es []
    = Ok ["/srv/workflows/demo: must contain exactly one .models file"].
Proof.
  cbv zeta.
  assert (H1 : missing_files (bundle_plus "extra.models" (file_of models_text)) = [])
    by (by vm_compute).
  assert (H2 : length (models_list (bundle_plus "extra.models" (file_of models_text)))
               ≠ 1%nat) by (by vm_compute).
  split; [exact H1|]. split; [exact H2|].
  apply (models_count_single_error reverse_order (table_load documents) demo_dir
           (bundle_plus "extra.models" (file_of models_text)) [] H1 H2).
Defined.

Lemma unknown_files_single_error_witness :
  let es := bundle_plus "notes.txt" (file_of "to do") in
  missing_files es = [] ∧ length (models_list es) = 1%nat ∧ unknown_files es ≠ []
  ∧ validate_bundle sorted_order (table_load documents) demo_dir es []
    = validate_bundle sorted_order (table_load documents) demo_dir
        (without_unknown es) ["/srv/workflows/demo: unknown files present: notes.txt"].
Proof.
  cbv zeta. set (es := bundle_plus "notes.txt" (file_of "to do")).
  assert (H1 : missing_files es = []) by (by vm_compute).
  assert (H2 : length (models_list es) = 1%nat) by (by vm_compute).
  assert (H3 : unknown_files es ≠ []) by (by vm_compute).
  split; [exact H1|]. split; [exact H2|]. split; [exact H3|].
  apply (unknown_files_single_error sorted_order (table_load documents) demo_dir
           es [] H1 H2 H3).
Defined.

(** The bytes of the two large files play no part in what follows. *)
Ltac forget_zeros :=
  unfold big_bundle, big_file, full_file, zeros;
  generalize (repeat x00 (Z.to_nat (2 * 1024 * 1024 + 1)));
  generalize (repeat x00 (Z.to_nat (2 * 1024 * 1024)));
  intros ? ?.

Lemma wf_big_bundle : wf_entries big_bundle.
Proof. forget_zeros. apply (bool_decide_unpack _). by vm_compute. Defined.

Lemma size_errors_reported_witness :
  wf_entries big_bundle ∧ missing_files big_bundle = []
  ∧ models_list big_bundle = ["demo.models"]
  ∧ ∃ oversized,
      (∀ name, name ∈ oversized ↔
         name ∈ REQUIRED_FILES ∪ {[ "demo.models" ]} ∧
         ∃ sz bytes, (name, File sz bytes) ∈ big_bundle ∧ 2 * 1024 * 1024 < sz)
      ∧ validate_bundle sorted_order (table_load documents) demo_dir big_bundle []
        = (tail ← metadata_errors (table_load documents) demo_dir big_bundle;
           Ok ([] ++ unknown_errors demo_dir big_bundle
                 ++ map (fun name => path_str demo_dir +:+ ": " +:+ name
                                       +:+ " exceeds 2 MB") oversized
                 ++ tail)).
Proof.
  assert (H1 : missing_files big_bundle = []) by (forget_zeros; by vm_compute).
  assert (H2 : models_list big_bundle = ["demo.models"])
    by (forget_zeros; by vm_compute).
  split; [exact wf_big_bundle|]. split; [exact H1|]. split; [exact H2|].
  destruct (size_errors_reported sorted_order (table_load documents) demo_dir
              big_bundle [] "demo.models" wf_big_bundle H1 H2)
    as (oversized & _ & Hin & _ & Hrun & _).
  exists oversized. split; [exact Hin|exact Hrun].
Defined.

Example big_bundle_errors :
  size_errors demo_dir big_bundle (sorted_order (sized big_bundle))
  = ["/srv/workflows/demo: workflow_api.json exceeds 2 MB"].
Proof. forget_zeros. by vm_compute. Qed.

Lemma hash_verification_witness :
  ∃ meta hashes,
    load_metadata (table_load documents) good_bundle "metadata.yaml" = Ok meta
    ∧ dict_get meta "hashes" = YMap hashes
    ∧ dict_get hashes "api_json" = YStr (sha256_hex (bytes_of_string api_text))
    ∧ dict_get hashes "original_json"
      = YStr (sha256_hex (bytes_of_string original_text))
    ∧ validate_bundle sorted_order (table_load documents) demo_dir good_bundle []
      = Ok [].
Proof.
  set (hashes := [ (YStr "api_json", YStr api_digest);
                   (YStr "original_json", YStr original_digest) ]).
  set (meta := meta_head_items ++ [ (YStr "hashes", YMap hashes) ]).
  assert (H1 : missing_files good_bundle = []) by (by vm_compute).
  assert (H2 : length (models_list good_bundle) = 1%nat) by (by vm_compute).
  assert (H3 : load_metadata (table_load documents) good_bundle "metadata.yaml"
               = Ok meta) by (by vm_compute).
  assert (H4 : REQUIRED_META_FIELDS ⊆ str_keys meta)
    by (apply (bool_decide_unpack _); by vm_compute).
  assert (H5 : dict_get meta "hashes" = YMap hashes) by (by vm_compute).
  assert (H6 : REQUIRED_HASH_FIELDS ⊆ str_keys hashes)
    by (apply (bool_decide_unpack _); by vm_compute).
  assert (H7 : lookup_entry good_bundle "workflow_api.json"
               = Some (File 2 (bytes_of_string api_text))) by (by vm_compute).
  assert (H8 : lookup_entry good_bundle "workflow_original.json"
               = Some (File 11 (bytes_of_string original_text))) by (by vm_compute).
  assert (Ha : dict_get hashes "api_json"
               = YStr (sha256_hex (bytes_of_string api_text))) by (by vm_compute).
  assert (Ho : dict_get hashes "original_json"
               = YStr (sha256_hex (bytes_of_string original_text)))
    by (by vm_compute).
  exists meta, hashes. split; [exact H3|]. split; [exact H5|].
  split; [exact Ha|]. split; [exact Ho|].
  destruct (hash_verification sorted_order (table_load documents) demo_dir
              good_bundle [] meta hashes 2 11 _ _ H1 H2 H3 H4 H5 H6 H7 H8)
    as (api_errors & original_errors & Hrun & Hapi & _ & Horiginal & _).
  rewrite Hrun, (Hapi Ha), (Horiginal Ho). by vm_compute.
Defined.

Lemma hashes_field_check_witness :
  let es := bundle_with_meta list_hashes_text in
  ∃ meta,
    load_metadata (table_load documents) es "metadata.yaml" = Ok meta
    ∧ dict_get meta "hashes" = YSeq [YStr "a"; YStr "b"]
    ∧ validate_bundle sorted_order (table_load documents) demo_dir es []
      = Ok ["/srv/workflows/demo: metadata hashes must be a mapping"].
Proof.
  cbv zeta. set (es := bundle_with_meta list_hashes_text).
  set (meta := meta_head_items ++ [ (YStr "hashes", YSeq [YStr "a"; YStr "b"]) ]).
  assert (H1 : missing_files es = []) by (by vm_compute).
  assert (H2 : length (models_list es) = 1%nat) by (by vm_compute).
  assert (H3 : load_metadata (table_load documents) es "metadata.yaml" = Ok meta)
    by (by vm_compute).
  assert (H4 : REQUIRED_META_FIELDS ⊆ str_keys meta)
    by (apply (bool_decide_unpack _); by vm_compute).
  assert (H5 : truthy (dict_get meta "hashes") = true) by (by vm_compute).
  assert (H6 : is_mapping (dict_get meta "hashes") = false) by (by vm_compute).
  exists meta. split; [exact H3|]. split; [by vm_compute|].
  destruct (hashes_field_check sorted_order (table_load documents) demo_dir es []
              meta H1 H2 H3 H4) as [Hrun _].
  rewrite (Hrun H5 H6). by vm_compute.
Defined.

Lemma null_metadata_missing_fields_witness :
  let es := bundle_with_meta "" in
  missing_files es = [] ∧ length (models_list es) = 1%nat
  ∧ lookup_entry es "metadata.yaml" = Some (File 0 [])
  ∧ table_load documents [] = Ok YNull
  ∧ load_metadata (table_load documents) es "metadata.yaml" = Ok []
  ∧ validate_bundle sorted_order (table_load documents) demo_dir es []
    = Ok [ "/srv/workflows/demo: metadata missing fields: "
           +:+ "author, compatible_cindergrace_versions, "
           +:+ "contains_non_manager_nodes, description, hashes, "
           +:+ "min_comfyui_version, name, non_manager_nodes_info, "
           +:+ "recommended_vram_gb, required_models, tags, version" ].
Proof.
  cbv zeta. set (es := bundle_with_meta "").
  assert (H1 : missing_files es = []) by (by vm_compute).
  assert (H2 : length (models_list es) = 1%nat) by (by vm_compute).
  assert (H3 : lookup_entry es "metadata.yaml" = Some (File 0 [])) by (by vm_compute).
  assert (H4 : table_load documents [] = Ok YNull) by (by vm_compute).
  split; [exact H1|]. split; [exact H2|]. split; [exact H3|]. split; [exact H4|].
  destruct (null_metadata_missing_fields sorted_order (table_load documents)
              demo_dir es [] 0 [] H1 H2 H3 H4) as [Hload Hrun].
  split; [exact Hload|]. rewrite Hrun. by vm_compute.
Defined.

Lemma wf_demo_tree : wf_node demo_tree.
Proof.
  repeat match goal with
         | |- _ ∧ _ => split
         | |- wf_entries _ => apply (bool_decide_unpack _); by vm_compute
         | |- True => exact I
         | |- wf_node _ => cbn [wf_node demo_tree good_bundle lone_metadata file_of]
         end.
Defined.

Lemma bundles_discovered_witness :
  wf_node demo_tree
  ∧ NoDup (map fst (find_bundles demo_root demo_tree))
  ∧ (["srv"; "workflows"; "a"] ∈ map fst (find_bundles demo_root demo_tree) ↔
     ∃ rel sz es, rel ≠ [] ∧ ["srv"; "workflows"; "a"] = demo_root ++ rel ∧
       resolve demo_tree rel = Some (Dir sz es) ∧
       exists_in es "metadata.yaml" = true).
Proof.
  split; [exact wf_demo_tree|].
  destruct (bundles_discovered demo_root demo_tree wf_demo_tree) as (Hnodup & Hin & _).
  split; [exact Hnodup|apply Hin].
Defined.

Lemma exit_status_witness :
  ∃ out code,
    main sorted_order (table_load documents) demo_root (Some demo_tree) = Ok (out, code)
    ∧ (code = 1 ↔
         Some demo_tree = None ∨
         ∃ n p x, Some demo_tree = Some n ∧ (p, x) ∈ find_bundles demo_root n ∧
           validate_bundle sorted_order (table_load documents) p (entries_of x) []
           ≠ Ok []).
Proof.
  assert (H : ∀ n, Some demo_tree = Some n → wf_node n).
  { intros n Heq. injection Heq as <-. exact wf_demo_tree. }
  destruct (exit_status sorted_order (table_load documents) demo_root
              (Some demo_tree) H) as (out & code & Hrun & Hone & _).
  exists out, code. split; [exact Hrun|exact Hone].
Defined.

Example demo_run :
  main sorted_order (table_load documents) demo_root (Some demo_tree)
  = Ok ([ "VALIDATION FAILED:";
          "- /srv/workflows/a: missing files: workflow_api.json, workflow_original.json" ],
        1).
Proof. by vm_compute. Qed.

Example demo_run_no_root :
  main sorted_order (table_load documents) demo_root None
  = Ok (["ERROR: workflows root not found: /srv/workflows"], 1).
Proof. by vm_compute. Qed.

Example demo_run_no_bundle :
  main sorted_order (table_load documents) demo_root
    (Some (Dir 4096 [ ("README.md", file_of "# empty") ]))
  = Ok (["WARNING: No workflow bundles found (metadata.yaml missing)"], 0).
Proof. by vm_compute. Qed.

Example demo_run_ok :
  main sorted_order (table_load documents) demo_root
    (Some (Dir 4096 [ ("one", Dir 4096 good_bundle); ("two", Dir 4096 good_bundle) ]))
  = Ok (["Validation OK: 2 bundle(s)"], 0).
Proof. by vm_compute. Qed.

Lemma sha256_file_one_pass_witness :
  lookup_entry good_bundle "workflow_api.json" = Some (File 2 (bytes_of_string api_text))
  ∧ sha256_file good_bundle "workflow_api.json"
    = Ok (sha256_one_pass (bytes_of_string api_text))
  ∧ sha256_one_pass (bytes_of_string api_text)
    = "44136fa355b3678a1146ad16f7e8649e94fb4fc21fe77e8310c060f61caaff8a".
Proof.
  assert (H : lookup_entry good_bundle "workflow_api.json"
              = Some (File 2 (bytes_of_string api_text))) by (by vm_compute).
  split; [exact H|].
  destruct (sha256_file_one_pass good_bundle "workflow_api.json" 2
              (bytes_of_string api_text) H) as [Hrun _].
  split; [exact Hrun|by vm_compute].
Defined.

(** * The further properties at concrete bundles *)

Ltac by_computation :=
  lazymatch goal with
  | |- wf_entries _ => apply (bool_decide_unpack _); by vm_compute
  | |- _ => by vm_compute
  end.

Lemma metadata_parse_error_witness :
  validate_bundle sorted_order (table_load more_documents) demo_dir
    (bundle_with_meta broken_text) []
  = Ok ["/srv/workflows/demo: invalid metadata.yaml (could not parse the document)"].
Proof.
  set (es := bundle_with_meta broken_text).
  assert (H1 : missing_files es = []) by by_computation.
  assert (H2 : length (models_list es) = 1%nat) by by_computation.
  assert (H3 : lookup_entry es "metadata.yaml"
               = Some (File 11 (bytes_of_string broken_text))) by by_computation.
  assert (H4 : table_load more_documents (bytes_of_string broken_text)
               = Raise "could not parse the document") by by_computation.
  rewrite (metadata_parse_error sorted_order (table_load more_documents) demo_dir
             es [] 11 _ _ H1 H2 H3 H4).
  by vm_compute.
Defined.

Lemma metadata_not_mapping_witness :
  validate_bundle sorted_order (table_load more_documents) demo_dir
    (bundle_with_meta sequence_text) []
  = Ok ["/srv/workflows/demo: invalid metadata.yaml (metadata.yaml must be a mapping)"].
Proof.
  set (es := bundle_with_meta sequence_text).
  assert (H1 : missing_files es = []) by by_computation.
  assert (H2 : length (models_list es) = 1%nat) by by_computation.
  assert (H3 : lookup_entry es "metadata.yaml"
               = Some (File 15 (bytes_of_string sequence_text))) by by_computation.
  assert (H4 : table_load more_documents (bytes_of_string sequence_text)
               = Ok sequence_doc) by by_computation.
  assert (H5 : truthy sequence_doc = true) by by_computation.
  assert (H6 : is_mapping sequence_doc = false) by by_computation.
  destruct (metadata_not_mapping sorted_order (table_load more_documents) demo_dir
              es [] 15 _ _ H1 H2 H3 H4 H5 H6) as [_ Hrun].
  rewrite Hrun. by vm_compute.
Defined.

Lemma metadata_fields_missing_witness :
  ∃ meta,
    load_metadata (table_load more_documents) (bundle_with_meta partial_meta_text)
      "metadata.yaml" = Ok meta
    ∧ validate_bundle sorted_order (table_load more_documents) demo_dir
        (bundle_with_meta partial_meta_text) []
      = Ok [ "/srv/workflows/demo: metadata missing fields: "
             +:+ "author, compatible_cindergrace_versions, "
             +:+ "contains_non_manager_nodes, description, hashes, "
             +:+ "min_comfyui_version, non_manager_nodes_info, "
             +:+ "recommended_vram_gb, required_models, tags" ].
Proof.
  set (es := bundle_with_meta partial_meta_text).
  set (meta := [ (YStr "name", YStr "demo"); (YStr "version", YStr "v1") ]).
  assert (H1 : missing_files es = []) by by_computation.
  assert (H2 : length (models_list es) = 1%nat) by by_computation.
  assert (H3 : load_metadata (table_load more_documents) es "metadata.yaml" = Ok meta)
    by by_computation.
  assert (H4 : missing_fields meta ≠ []) by by_computation.
  exists meta. split; [exact H3|].
  destruct (metadata_fields_missing sorted_order (table_load more_documents)
              demo_dir es [] meta H1 H2 H3 H4) as [Hrun _].
  rewrite Hrun. by vm_compute.
Defined.

Lemma wf_good : wf_entries good_bundle.
Proof. by_computation. Defined.

Lemma bundle_clean_iff_witness :
  wf_entries good_bundle
  ∧ missing_files good_bundle = [] ∧ length (models_list good_bundle) = 1%nat
  ∧ unknown_files good_bundle = []
  ∧ ∃ meta hashes api_size api_bytes original_size original_bytes,
      load_metadata (table_load documents) good_bundle "metadata.yaml" = Ok meta ∧
      missing_fields meta = [] ∧
      dict_get meta "hashes" = YMap hashes ∧
      lookup_entry good_bundle "workflow_api.json" = Some (File api_size api_bytes) ∧
      lookup_entry good_bundle "workflow_original.json"
        = Some (File original_size original_bytes) ∧
      dict_get hashes "api_json" = YStr (sha256_one_pass api_bytes) ∧
      dict_get hashes "original_json" = YStr (sha256_one_pass original_bytes).
Proof.
  assert (Hrun : validate_bundle sorted_order (table_load documents) demo_dir
                   good_bundle ["earlier"] = Ok ["earlier"]) by by_computation.
  apply (bundle_clean_iff sorted_order (table_load documents) demo_dir good_bundle
           ["earlier"] wf_good) in Hrun
    as (H1 & H2 & H3 & _ & H4).
  split; [exact wf_good|]. split; [exact H1|]. split; [exact H2|].
  split; [exact H3|exact H4].
Defined.

Lemma wf_hidden_models : wf_entries hidden_models_bundle.
Proof. by_computation. Defined.

Lemma bundle_errors_shape_witness :
  wf_entries hidden_models_bundle
  ∧ ∃ new,
      (∀ errors, validate_bundle sorted_order (table_load documents) demo_dir
                   hidden_models_bundle errors = Ok (errors ++ new))
      ∧ (length new ≤ 7)%nat
      ∧ Forall (fun e => ∃ msg, e = path_str demo_dir +:+ ": " +:+ msg) new.
Proof.
  split; [exact wf_hidden_models|].
  apply (bundle_errors_shape sorted_order (table_load documents) demo_dir
           hidden_models_bundle wf_hidden_models).
Defined.

Lemma main_report_witness :
  wf_node demo_tree ∧ find_bundles demo_root demo_tree ≠ []
  ∧ main sorted_order (table_load documents) demo_root (Some demo_tree)
    = Ok ([ "VALIDATION FAILED:";
            "- /srv/workflows/a: missing files: workflow_api.json, workflow_original.json" ],
          1).
Proof.
  assert (H : find_bundles demo_root demo_tree ≠ []) by by_computation.
  split; [exact wf_demo_tree|]. split; [exact H|].
  destruct (main_report sorted_order (table_load documents) demo_root demo_tree
              wf_demo_tree H) as (_ & _ & Hmain).
  rewrite Hmain. by vm_compute.
Defined.

Lemma capital_files : missing_files (bundle_with_meta capital_meta_text) = [].
Proof. by vm_compute. Qed.

Lemma capital_models : length (models_list (bundle_with_meta capital_meta_text)) = 1%nat.
Proof. by vm_compute. Qed.

Lemma capital_load :
  load_metadata (table_load more_documents) (bundle_with_meta capital_meta_text)
    "metadata.yaml"
  = Ok (meta_head_items ++
          [ (YStr "hashes", YMap [ (YStr "api_json", YStr capital_digest);
                                   (YStr "original_json", YStr original_digest) ]) ]).
Proof. by vm_compute. Qed.

Lemma capital_fields :
  missing_fields (meta_head_items ++
    [ (YStr "hashes", YMap [ (YStr "api_json", YStr capital_digest);
                             (YStr "original_json", YStr original_digest) ]) ]) = [].
Proof. by vm_compute. Qed.

Lemma capital_keys :
  REQUIRED_HASH_FIELDS ⊆
  str_keys [ (YStr "api_json", YStr capital_digest);
             (YStr "original_json", YStr original_digest) ].
Proof. apply (bool_decide_unpack _). by vm_compute. Qed.

Lemma capital_not_lower :
  ¬ Forall (fun c => lower_hex c = true) (list_ascii_of_string capital_digest).
Proof.
  intros Hall. apply (Forall_lookup_1 _ _ 5%nat "F"%char) in Hall; [|reflexivity].
  discriminate Hall.
Qed.

Lemma recorded_value_no_digest_witness :
  ∃ new,
    validate_bundle sorted_order (table_load more_documents) demo_dir
      (bundle_with_meta capital_meta_text) [] = Ok ([] ++ new)
    ∧ path_str demo_dir +:+ ": api_json hash mismatch" ∈ new.
Proof.
  destruct (recorded_value_no_digest sorted_order (table_load more_documents)
              demo_dir (bundle_with_meta capital_meta_text) [] _ _ 2 11
              (bytes_of_string api_text) (bytes_of_string original_text)
              capital_files capital_models capital_load capital_fields
              eq_refl capital_keys eq_refl eq_refl)
    as (new & Hrun & Hapi & _).
  exists new. split; [exact Hrun|]. apply Hapi.
  intros (s & Hs & _ & Hall). apply capital_not_lower.
  injection Hs as <-. exact Hall.
Defined.

Lemma wf_with_assets : wf_entries bundle_with_assets.
Proof. by_computation. Defined.

Lemma subdirectories_ignored_witness :
  wf_entries bundle_with_assets
  ∧ validate_bundle sorted_order (table_load documents) demo_dir
      (files_only bundle_with_assets) []
    = validate_bundle sorted_order (table_load documents) demo_dir
        bundle_with_assets [].
Proof.
  split; [exact wf_with_assets|].
  apply (subdirectories_ignored sorted_order (table_load documents) demo_dir
           bundle_with_assets [] wf_with_assets).
Defined.

Example assets_not_unknown :
  validate_bundle sorted_order (table_load documents) demo_dir bundle_with_assets []
  = Ok [].
Proof. by vm_compute. Qed.

Lemma set_order_irrelevant_witness :
  wf_entries good_bundle
  ∧ ∃ new1 new2,
      (∀ errors, validate_bundle sorted_order (table_load documents) demo_dir
                   good_bundle errors = Ok (errors ++ new1))
      ∧ (∀ errors, validate_bundle reverse_order (table_load documents) demo_dir
                     good_bundle errors = Ok (errors ++ new2))
      ∧ new1 ≡ₚ new2.
Proof.
  split; [exact wf_good|].
  destruct (set_order_irrelevant sorted_order reverse_order (table_load documents)
              demo_dir good_bundle wf_good) as (new1 & new2 & H1 & H2 & Hperm & _).
  by exists new1, new2.
Defined.

Lemma root_is_no_bundle_witness :
  Forall (fun e => is_file (snd e) = true) good_bundle
  ∧ main sorted_order (table_load documents) demo_dir (Some (Dir 4096 good_bundle))
    = Ok (["WARNING: No workflow bundles found (metadata.yaml missing)"], 0).
Proof.
  assert (H : Forall (fun e => is_file (snd e) = true) good_bundle)
    by (repeat constructor).
  split; [exact H|].
  apply (root_is_no_bundle sorted_order (table_load documents) demo_dir 4096
           good_bundle H).
Defined.

Lemma metadata_directory_witness :
  wf_entries metadata_as_directory
  ∧ lookup_entry metadata_as_directory "metadata.yaml" = Some (Dir 4096 [])
  ∧ is_bundle (demo_dir, Dir 4096 metadata_as_directory) = true
  ∧ validate_bundle sorted_order (table_load documents) demo_dir
      metadata_as_directory []
    = Ok ["/srv/workflows/demo: missing files: metadata.yaml, workflow_original.json"].
Proof.
  assert (H1 : wf_entries metadata_as_directory) by by_computation.
  assert (H2 : lookup_entry metadata_as_directory "metadata.yaml"
               = Some (Dir 4096 [])) by by_computation.
  split; [exact H1|]. split; [exact H2|].
  destruct (metadata_directory sorted_order (table_load documents) demo_dir 4096
              metadata_as_directory [] 4096 [] H1 H2) as (Hbundle & _ & Hrun).
  split; [exact Hbundle|]. rewrite Hrun. by vm_compute.
Defined.

Lemma false_document_is_empty_witness :
  table_load false_documents (bytes_of_string false_text) = Ok (YBool false)
  ∧ load_metadata (table_load false_documents) (bundle_with_meta false_text)
      "metadata.yaml" = Ok []
  ∧ validate_bundle sorted_order (table_load false_documents) demo_dir
      (bundle_with_meta false_text) []
    = Ok [ "/srv/workflows/demo: metadata missing fields: "
           +:+ "author, compatible_cindergrace_versions, "
           +:+ "contains_non_manager_nodes, description, hashes, "
           +:+ "min_comfyui_version, name, non_manager_nodes_info, "
           +:+ "recommended_vram_gb, required_models, tags, version" ].
Proof.
  set (es := bundle_with_meta false_text).
  assert (H1 : missing_files es = []) by by_computation.
  assert (H2 : length (models_list es) = 1%nat) by by_computation.
  assert (H3 : lookup_entry es "metadata.yaml"
               = Some (File 5 (bytes_of_string false_text))) by by_computation.
  assert (H4 : table_load false_documents (bytes_of_string false_text)
               = Ok (YBool false)) by by_computation.
  assert (H5 : truthy (YBool false) = false) by by_computation.
  split; [exact H4|].
  destruct (false_document_is_empty sorted_order (table_load false_documents)
              demo_dir es [] 5 _ _ H1 H2 H3 H4 H5) as [Hload Hrun].
  split; [exact Hload|]. rewrite Hrun. by vm_compute.
Defined.
